(** * AlphaCycle event engines: a shallow embedding and its properties

    The development follows the JavaScript sources under
    [backend/services]: [event-engines.js], [toy-barometer.js],
    [forward-returns.js] and [contextual-filters.js].

    Modelling conventions, used throughout:
    - a JavaScript number that carries a price, a return or a threshold is
      a rational ([Q]): every finite double is one, and the comparisons of
      doubles are exact.  The event engines and the filters only compare
      such numbers with thresholds, and their arithmetic is taken exact.
      The forward-returns calculator ranks the results of its own
      arithmetic, so there every operation that rounds in binary64 is a
      field of the record [Arithmetic]; its theorems hold for every such
      record and are run on the round-to-nearest instance [Binary64].
      NaN and the infinities are outside the model.  Counters and array
      indices are [N], [nat] or [Z];
    - a [Date] is its time value, the number of milliseconds since the
      epoch ([Z]).  The host is taken to run in UTC, so the local-time
      accessors ([getDate], [setDate], [getDay], [getMonth] and the
      [new Date(y, m, d)] constructor) coincide with the UTC ones;
    - [d.toISOString().split('T')[0]] is the calendar day of [d]; the
      YYYY-MM-DD text is in bijection with the epoch day number, which is
      what the model uses as the key of the per-day lookup tables;
    - a statement that can throw is a computation in [Completion]; an
      [await] of a rejected promise is a [Throw];
    - of the console, the lines written with [console.warn] and
      [console.error] are kept; texts that are made from numbers with
      [toFixed] for display only are left out of the records, the numbers
      behind them are kept. *)

From Stdlib Require Import QArith Qabs ZArith Lia Lqa Ascii String Sorted Permutation.
From stdpp Require Import base option list strings pretty gmap.

Local Open Scope Z_scope.

(** ** Completions: normal return or a thrown [Error] *)

Record JsError : Type := mkError { message : string }.

Inductive Completion (A : Type) : Type :=
| Return (a : A)
| Throw (e : JsError).
Arguments Return {A} a.
Arguments Throw {A} e.

Definition cbind {A B} (c : Completion A) (k : A -> Completion B) : Completion B :=
  match c with
  | Return a => k a
  | Throw e => Throw e
  end.

Declare Scope js_scope.
Delimit Scope js_scope with js.
Notation "'let*' x ':=' c 'in' k" := (cbind c (fun x => k))
  (at level 10, x pattern, c at level 100, k at level 200) : js_scope.

(** Stateful computations: the state survives a throw, as object mutation
    does in JavaScript. *)
Definition Eff (S A : Type) : Type := S -> Completion A * S.

Definition eret {S A} (a : A) : Eff S A := fun s => (Return a, s).
Definition ethrow {S A} (e : JsError) : Eff S A := fun s => (Throw e, s).
Definition ebind {S A B} (c : Eff S A) (k : A -> Eff S B) : Eff S B :=
  fun s => match c s with
           | (Return a, s') => k a s'
           | (Throw e, s') => (Throw e, s')
           end.
Definition elift {S A} (c : Completion A) : Eff S A := fun s => (c, s).
Definition emodify {S} (f : S -> S) : Eff S unit := fun s => (Return tt, f s).
Definition eget {S} : Eff S S := fun s => (Return s, s).
Definition etry {S A} (body : Eff S A) (handler : JsError -> Eff S A) : Eff S A :=
  fun s => match body s with
           | (Return a, s') => (Return a, s')
           | (Throw e, s') => handler e s'
           end.

Notation "x <- c ;; k" := (ebind c (fun x => k))
  (at level 100, c at next level, right associativity) : js_scope.
Notation "c ;;; k" := (ebind c (fun _ => k))
  (at level 100, right associativity) : js_scope.


(** ** The built-in [Date], restricted to what the services use *)

Module JsDate.

Definition msPerDay : Z := 86400000.

(** Day number and time within the day of a time value. *)
Definition Day (t : Z) : Z := t / msPerDay.
Definition TimeWithinDay (t : Z) : Z := t mod msPerDay.

(** Day number of the civil date [y]-[m]-[d] in the proleptic Gregorian
    calendar ([m] from 1 to 12; [d] may overflow the month). *)
Definition days_from_civil (y m d : Z) : Z :=
  let y' := if decide (m <= 2) then y - 1 else y in
  let era := y' / 400 in
  let yoe := y' - era * 400 in
  let mp := (m + 9) mod 12 in
  let doy := (153 * mp + 2) / 5 + d - 1 in
  let doe := yoe * 365 + yoe / 4 - yoe / 100 + doy in
  era * 146097 + doe - 719468.

(** Civil date (year, month 1..12, day 1..31) of a day number. *)
Definition civil_from_days (z : Z) : Z * Z * Z :=
  let z' := z + 719468 in
  let era := z' / 146097 in
  let doe := z' - era * 146097 in
  let yoe := (doe - doe / 1460 + doe / 36524 - doe / 146096) / 365 in
  let doy := doe - (365 * yoe + yoe / 4 - yoe / 100) in
  let mp := (5 * doy + 2) / 153 in
  let d := doy - (153 * mp + 2) / 5 + 1 in
  let m := if decide (mp < 10) then mp + 3 else mp - 9 in
  let y := yoe + era * 400 in
  (if decide (m <= 2) then y + 1 else y, m, d).

Definition getFullYear (t : Z) : Z := (civil_from_days (Day t)).1.1.
(** [getMonth] is zero-based. *)
Definition getMonth (t : Z) : Z := (civil_from_days (Day t)).1.2 - 1.
Definition getDate (t : Z) : Z := (civil_from_days (Day t)).2.
(** 0 is Sunday; the epoch was a Thursday. *)
Definition getDay (t : Z) : Z := (Day t + 4) mod 7.

(** [MakeDay(year, month, date)] with a zero-based, possibly overflowing
    month index. *)
Definition MakeDay (year month date : Z) : Z :=
  days_from_civil (year + month / 12) (month mod 12 + 1) 1 + date - 1.

(** [new Date(year, monthIndex, day)]: years 0..99 mean 1900..1999. *)
Definition ofYMD (year monthIndex day : Z) : Z :=
  let yr := if decide (0 <= year <= 99) then 1900 + year else year in
  MakeDay yr monthIndex day * msPerDay.

(** [d.setDate(n)]: day [n] of the month [d] currently lies in, the time
    within the day kept. *)
Definition setDate (t : Z) (n : Z) : Z :=
  MakeDay (getFullYear t) (getMonth t) n * msPerDay + TimeWithinDay t.

(** The key [toISOString().split('T')[0]] stands for. *)
Definition isoDay (t : Z) : Z := Day t.

(** The YYYY-MM-DD text of a day number, for the years 0 to 9999. *)
Definition pad2 (n : Z) : string :=
  if decide (n < 10) then "0" +:+ pretty n else pretty n.
Definition pad4 (n : Z) : string :=
  if decide (n < 10) then "000" +:+ pretty n
  else if decide (n < 100) then "00" +:+ pretty n
  else if decide (n < 1000) then "0" +:+ pretty n
  else pretty n.
Definition isoText (day : Z) : string :=
  let '(y, m, d) := civil_from_days day in
  pad4 y +:+ "-" +:+ pad2 m +:+ "-" +:+ pad2 d.

(** A calendar day written as its midnight time value. *)
Definition ymd (y m d : Z) : Z := days_from_civil y m d * msPerDay.

End JsDate.

(** ** Data model *)

(** A price point as [MarketDataService.getHistoricalData] builds it; [sma]
    is the property the momentum engine adds ([None]: property absent). *)
Record PricePoint : Type := mkPricePoint {
  date : Z;
  open : Q;
  high : Q;
  low : Q;
  close : Q;
  volume : Q;
  sma : option Q
}.

Definition pricePoint (date : Z) (open high low close volume : Q) : PricePoint :=
  mkPricePoint date open high low close volume None.

(** Objects live in a store and arrays hold references into it, so that two
    arrays built from the same elements share them. *)
Definition ref : Type := nat.
Abbreviation Heap := (list PricePoint).

(** [a[i]] for a number [i]: [undefined] ([None]) outside the array. *)
Definition array_get {A} (a : list A) (i : Z) : option A :=
  if decide (0 <= i) then a !! Z.to_nat i else None.

Definition TypeError (what : string) : JsError :=
  mkError ("Cannot read properties of undefined (reading '" +:+ what +:+ "')").

(** [a[i].prop] through the store. *)
Definition deref (h : Heap) (a : list ref) (i : Z) (what : string) : Completion PricePoint :=
  match array_get a i with
  | Some r => match h !! r with
              | Some p => Return p
              | None => Throw (TypeError what)
              end
  | None => Throw (TypeError what)
  end.

(** [Math.abs] and the comparisons of numbers, as booleans. *)
Definition Math_abs (x : Q) : Q := Qabs x.
Definition Qleb (x y : Q) : bool := Qle_bool x y.
Definition Qltb (x y : Q) : bool := negb (Qle_bool y x).
Definition Qgeb (x y : Q) : bool := Qleb y x.
Definition Qgtb (x y : Q) : bool := Qltb y x.

(** [for (...) body] over the values of the loop variable, with the loop
    state threaded through and a throw leaving the loop. *)
Fixpoint for_each {A S} (l : list A) (body : A -> S -> Completion S) (s : S)
  : Completion S :=
  match l with
  | [] => Return s
  | x :: l' => cbind (body x s) (for_each l' body)
  end.

(** The same for a body that writes the world. *)
Fixpoint for_each_eff {W A} (l : list A) (body : A -> Eff W unit) : Eff W unit :=
  match l with
  | [] => eret tt
  | x :: l' => ebind (body x) (fun _ => for_each_eff l' body)
  end.

(** The values [lo, lo+1, ..., hi-1] of [for (i = lo; i < hi; i++)]. *)
Definition range (lo hi : Z) : list Z := seqZ lo (hi - lo).

(** [xs.reduce((sum, x) => sum + x, 0)]. *)
Definition sumQ (xs : list Q) : Q := fold_left Qplus xs 0%Q.

Definition lengthQ {A} (xs : list A) : Q := inject_Z (Z.of_nat (length xs)).

(** ** Built-in containers *)

(** [Array.prototype.sort(compare)].  The sort is stable, and for a
    comparator that is consistent (a total preorder) its result is the one
    sorted, stable rearrangement of the array; an insertion sort computes
    it.  [le x y] stands for [compare(x, y) <= 0]. *)
Fixpoint sort_insert {A} (le : A -> A -> bool) (x : A) (l : list A) : list A :=
  match l with
  | [] => [x]
  | y :: l' => if le x y then x :: y :: l' else y :: sort_insert le x l'
  end.

Definition Array_sort {A} (le : A -> A -> bool) (l : list A) : list A :=
  foldr (sort_insert le) [] l.

(** A [Map]: keys in insertion order; setting a key that is present keeps
    its place. *)
Module JsMap.

Fixpoint set {K V} `{EqDecision K} (m : list (K * V)) (k : K) (v : V) : list (K * V) :=
  match m with
  | [] => [(k, v)]
  | (k', v') :: m' => if decide (k = k') then (k, v) :: m' else (k', v') :: set m' k v
  end.

Fixpoint get {K V} `{EqDecision K} (m : list (K * V)) (k : K) : option V :=
  match m with
  | [] => None
  | (k', v') :: m' => if decide (k = k') then Some v' else get m' k
  end.

(** [m[k] = f(m[k])] for a key that is present. *)
Fixpoint alter {K V} `{EqDecision K} (f : V -> V) (m : list (K * V)) (k : K)
  : list (K * V) :=
  match m with
  | [] => []
  | (k', v') :: m' => if decide (k = k') then (k', f v') :: m' else (k', v') :: alter f m' k
  end.

(** [new Map(entries)]. *)
Definition ofEntries {K V} `{EqDecision K} (es : list (K * V)) : list (K * V) :=
  foldl (fun m kv => set m kv.1 kv.2) [] es.

End JsMap.

(** ** BaseEventEngine (event-engines.js) *)

Module BaseEventEngine.

(** The engine object: the fields set by the constructor, and the lines
    the engine writes with [console.error]. *)
Record Engine : Type := mkEngine {
  name : string;
  isHealthy : bool;
  lastError : option string;
  successCount : N;
  errorCount : N;
  stderr : list string
}.

Definition constructor (name : string) : Engine :=
  {| name := name; isHealthy := true; lastError := None;
     successCount := 0%N; errorCount := 0%N; stderr := [] |}.

(** What [safeExecute] resolves to. *)
Inductive Outcome (A : Type) : Type :=
| Success (data : A)
| Failure (error fallback : string).
Arguments Success {A} data.
Arguments Failure {A} error fallback.

Definition success {A} (o : Outcome A) : bool :=
  match o with Success _ => true | Failure _ _ => false end.

Definition getFallbackMessage (this : Engine) : string :=
  name this +:+ " engine is temporarily unavailable. Please try again later.".

Definition incSuccess (this : Engine) : Engine :=
  {| name := name this; isHealthy := true; lastError := None;
     successCount := N.succ (successCount this); errorCount := errorCount this;
     stderr := stderr this |}.

Definition incError (msg : string) (this : Engine) : Engine :=
  {| name := name this; isHealthy := false; lastError := Some msg;
     successCount := successCount this; errorCount := N.succ (errorCount this);
     stderr := stderr this |}.

Definition console_error (line : string) (this : Engine) : Engine :=
  {| name := name this; isHealthy := isHealthy this; lastError := lastError this;
     successCount := successCount this; errorCount := errorCount this;
     stderr := stderr this ++ [line] |}.

Local Open Scope js_scope.

(** Statements that touch the engine object only, or the rest of the
    world only, inside a computation over both. *)
Definition on_engine {W A} (c : Eff Engine A) : Eff (Engine * W) A :=
  fun '(this, w) => let '(r, this') := c this in (r, (this', w)).
Definition on_world {W A} (c : Eff W A) : Eff (Engine * W) A :=
  fun '(this, w) => let '(r, w') := c w in (r, (this, w')).

(** [safeExecute(analysisFunction, ...args)]: the [try] block runs the
    algorithm and books a success, the [catch] block books the error and
    builds the failure object.  [W] is the part of the world the algorithm
    may write (the object store, for the momentum engine). *)
Definition safeExecute {W Args A} (analysisFunction : Args -> Eff W A) (args : Args)
  : Eff (Engine * W) (Outcome A) :=
  etry
    (result <- on_world (analysisFunction args) ;;
     on_engine (emodify incSuccess) ;;;
     eret (Success result))
    (fun error =>
       on_engine (emodify (incError (message error))) ;;;
       this <- on_engine eget ;;
       on_engine (emodify (console_error
         ("❌ " +:+ name this +:+ " Engine Failed: " +:+ message error))) ;;;
       this <- on_engine eget ;;
       eret (Failure (name this +:+ " analysis unavailable: " +:+ message error)
                     (getFallbackMessage this))).

(** [totalAnalyses] of [getHealthStatus()]. *)
Definition totalAnalyses (this : Engine) : N :=
  (successCount this + errorCount this)%N.

End BaseEventEngine.

(** ** PercentMoveEngine (event-engines.js) *)

Module PercentMoveEngine.

Record Params : Type := mkParams {
  percent_move : Q;
  days : Z;
  direction : string
}.

(** The defaults of the destructuring pattern. *)
Definition defaults : Params :=
  {| percent_move := 5%Q; days := 5; direction := "both" |}.

Record Match : Type := mkMatch {
  m_date : Z;
  startPrice : Q;
  endPrice : Q;
  m_return : Q;
  m_direction : string
}.

Record Result : Type := mkResult {
  matches : list Match;
  total_matches : nat;
  avg_return : Q
}.

Local Open Scope js_scope.

Definition isMatch (direction : string) (cumulativeReturn percent_move : Q) : bool :=
  if bool_decide (direction = "up") && Qgeb cumulativeReturn percent_move then true
  else if bool_decide (direction = "down")
          && Qleb cumulativeReturn (- Math_abs percent_move)%Q then true
  else if bool_decide (direction = "both")
          && Qgeb (Math_abs cumulativeReturn) (Math_abs percent_move) then true
  else false.

Definition _analyzePercentMove (h : Heap) (data : list ref) (ps : Params)
  : Completion Result :=
  let* matches :=
    for_each (range 0 (Z.of_nat (length data) - days ps))
      (fun i matches =>
         let* start := deref h data i "close" in
         let* stop := deref h data (i + days ps) "close" in
         let startPrice := close start in
         let endPrice := close stop in
         let cumulativeReturn := ((endPrice / startPrice - 1) * 100)%Q in
         if isMatch (direction ps) cumulativeReturn (percent_move ps)
         then Return (matches ++
                [ {| m_date := date stop; startPrice := startPrice; endPrice := endPrice;
                     m_return := cumulativeReturn;
                     m_direction := if Qgtb cumulativeReturn 0 then "up" else "down" |} ])
         else Return matches)
      [] in
  Return {| matches := matches;
            total_matches := length matches;
            avg_return := if decide (0 < length matches)%nat
                          then (sumQ (m_return <$> matches) / lengthQ matches)%Q
                          else 0%Q |}.

(** [analyze(data, parameters)]; the algorithm only reads the store. *)
Definition analyze (data : list ref) (ps : Params)
  : Eff (BaseEventEngine.Engine * Heap) (BaseEventEngine.Outcome Result) :=
  BaseEventEngine.safeExecute
    (fun '(data, ps) => h <- eget ;; elift (_analyzePercentMove h data ps)) (data, ps).

End PercentMoveEngine.

(** ** MomentumEngine (event-engines.js) *)

Module MomentumEngine.

Record Params : Type := mkParams {
  sma_period : Z;
  days : Z;
  momentum_type : string;
  threshold : Q
}.

Definition defaults : Params :=
  {| sma_period := 20; days := 60; momentum_type := "bullish"; threshold := 1.2%Q |}.

(** [extreme] is [maxDrawdown] of a bullish match and [maxRally] of a
    bearish one; [daysHeld] is [daysAboveSMA] or [daysBelowSMA]. *)
Record Match : Type := mkMatch {
  m_date : Z;
  startPrice : Q;
  endPrice : Q;
  extreme : Q;
  periodReturn : Q;
  daysHeld : Z
}.

Record Result : Type := mkResult {
  matches : list Match;
  total_matches : nat;
  r_momentum_type : string;
  avg_return : Q
}.

Definition minGapDays : Z := 30.

Local Open Scope js_scope.

(** [result[i].sma = v]: a write to the object the array element refers
    to. *)
Definition set_sma (a : list ref) (i : Z) (v : Q) : Eff Heap unit :=
  fun h =>
    match array_get a i with
    | Some r =>
        match h !! r with
        | Some p =>
            (Return tt,
             <[ r := mkPricePoint (date p) (open p) (high p) (low p) (close p) (volume p)
                                  (Some v) ]> h)
        | None => (Throw (mkError "Cannot set properties of undefined (setting 'sma')"), h)
        end
    | None => (Throw (mkError "Cannot set properties of undefined (setting 'sma')"), h)
    end.

(** [_calculateSMA(data, period)]: [result] is a new array of the same
    references. *)
Definition _calculateSMA (data : list ref) (period : Z) : Eff Heap (list ref) :=
  let result := data in
  for_each_eff (range (period - 1) (Z.of_nat (length result)))
    (fun i =>
       h <- eget ;;
       sum <- elift (for_each (range (i - period + 1) (i + 1))
                       (fun j sum => let* p := deref h result j "close" in
                                     Return (sum + close p)%Q)
                       0%Q) ;;
       set_sma result i (sum / inject_Z period)%Q) ;;;
  eret result.

(** State of the scan of one window. *)
Record Window : Type := mkWindow {
  isValidPeriod : bool;
  extremeValue : Q;
  runningPrice : Q
}.

(** [close <= sma] and [close >= sma]; a comparison with [undefined] is
    false. *)
Definition le_sma (p : PricePoint) : bool :=
  match sma p with Some s => Qleb (close p) s | None => false end.
Definition ge_sma (p : PricePoint) : bool :=
  match sma p with Some s => Qgeb (close p) s | None => false end.

Definition bullish_step (h : Heap) (a : list ref) (j : Z) (w : Window)
  : Completion Window :=
  if negb (isValidPeriod w) then Return w  (* after [break] *)
  else
    let* p := deref h a j "close" in
    if le_sma p then Return (mkWindow false (extremeValue w) (runningPrice w))
    else
      let highestPrice := if Qgtb (close p) (runningPrice w) then close p
                          else runningPrice w in
      let drawdown := ((close p - highestPrice) / highestPrice * 100)%Q in
      Return (mkWindow true
                (if Qltb drawdown (extremeValue w) then drawdown else extremeValue w)
                highestPrice).

Definition bearish_step (h : Heap) (a : list ref) (j : Z) (w : Window)
  : Completion Window :=
  if negb (isValidPeriod w) then Return w
  else
    let* p := deref h a j "close" in
    if ge_sma p then Return (mkWindow false (extremeValue w) (runningPrice w))
    else
      let lowestPrice := if Qltb (close p) (runningPrice w) then close p
                         else runningPrice w in
      let rally := ((close p - lowestPrice) / lowestPrice * 100)%Q in
      Return (mkWindow true
                (if Qgtb rally (extremeValue w) then rally else extremeValue w)
                lowestPrice).

(** State of the outer loop. *)
Record Scan : Type := mkScan {
  s_matches : list Match;
  lastMatchDate : option Z
}.

(** [(currentDate - lastMatchDate) / (1000*60*60*24) < minGapDays], with
    the division cleared. *)
Definition tooClose (lastMatchDate : option Z) (currentDate : Z) : bool :=
  match lastMatchDate with
  | Some l => bool_decide (currentDate - l < minGapDays * JsDate.msPerDay)
  | None => false
  end.

Definition candidate (h : Heap) (a : list ref) (ps : Params) (i : Z) (st : Scan)
  : Completion Scan :=
  let* stop := deref h a (i + days ps) "date" in
  let currentDate := date stop in
  if tooClose (lastMatchDate st) currentDate then Return st
  else
    let* start := deref h a i "close" in
    let startPrice := close start in
    let w0 := mkWindow true 0%Q startPrice in
    let record w :=
      mkScan (s_matches st ++
                [ {| m_date := date stop; startPrice := startPrice;
                     endPrice := close stop; extreme := extremeValue w;
                     periodReturn := ((close stop / startPrice - 1) * 100)%Q;
                     daysHeld := days ps |} ])
             (Some currentDate) in
    if bool_decide (momentum_type ps = "bullish") then
      let* w := for_each (range i (i + days ps)) (bullish_step h a) w0 in
      if isValidPeriod w && Qgeb (extremeValue w) (- Math_abs (threshold ps))%Q
      then Return (record w) else Return st
    else if bool_decide (momentum_type ps = "bearish") then
      let* w := for_each (range i (i + days ps)) (bearish_step h a) w0 in
      if isValidPeriod w && Qleb (extremeValue w) (Math_abs (threshold ps))
      then Return (record w) else Return st
    else Return st.

Definition scan (h : Heap) (dataWithSMA : list ref) (ps : Params) : Completion Scan :=
  for_each (range (sma_period ps) (Z.of_nat (length dataWithSMA) - days ps))
    (candidate h dataWithSMA ps) (mkScan [] None).

(** [_analyzeMomentum(data, parameters)], run against the object store. *)
Definition _analyzeMomentum (data : list ref) (ps : Params) : Eff Heap Result :=
  dataWithSMA <- _calculateSMA data (sma_period ps) ;;
  h <- eget ;;
  st <- elift (scan h dataWithSMA ps) ;;
  let matches := s_matches st in
  eret {| matches := matches;
          total_matches := length matches;
          r_momentum_type := momentum_type ps;
          avg_return := if decide (0 < length matches)%nat
                        then (sumQ (periodReturn <$> matches) / lengthQ matches)%Q
                        else 0%Q |}.

(** [analyze(data, parameters)]. *)
Definition analyze (data : list ref) (ps : Params)
  : Eff (BaseEventEngine.Engine * Heap) (BaseEventEngine.Outcome Result) :=
  BaseEventEngine.safeExecute (fun '(data, ps) => _analyzeMomentum data ps) (data, ps).

End MomentumEngine.

(** ** VolatilityEngine (event-engines.js) *)

Module VolatilityEngine.

Record Params : Type := mkParams {
  ticker : string;
  vix_threshold : Q;
  price_condition : string;
  price_threshold : Q
}.

Definition defaults : Params :=
  {| ticker := "SPY"; vix_threshold := 25%Q; price_condition := "any";
     price_threshold := 2%Q |}.

(** An element of the aligned series: the price point [a] and the
    volatility-index point [b] of one day. *)
Record Aligned : Type := mkAligned {
  al_date : Z;
  a : PricePoint;
  b : PricePoint
}.

Record Match : Type := mkMatch {
  m_date : Z;
  vix_level : Q;
  price_change : Q;
  price : Q
}.

Record Result : Type := mkResult {
  matches : list Match;
  total_matches : nat;
  avg_vix : Q
}.

Local Open Scope js_scope.

Definition _alignDataSeries (dataA dataB : list PricePoint) : list Aligned :=
  let dateMapA := JsMap.ofEntries ((fun item => (JsDate.isoDay (date item), item)) <$> dataA) in
  let dateMapB := JsMap.ofEntries ((fun item => (JsDate.isoDay (date item), item)) <$> dataB) in
  let aligned :=
    omap (fun '(dateStr, itemA) =>
            match JsMap.get dateMapB dateStr with
            | Some itemB => Some (mkAligned (date itemA) itemA itemB)
            | None => None
            end) dateMapA in
  Array_sort (fun x y => bool_decide (al_date x - al_date y <= 0)) aligned.

(** The daily close-to-close change and the opening gap, in percent. *)
Definition priceChange (prev cur : Aligned) : Q :=
  ((close (a cur) - close (a prev)) / close (a prev) * 100)%Q.
Definition gapDown (prev cur : Aligned) : Q :=
  ((open (a cur) - close (a prev)) / close (a prev) * 100)%Q.

(** The value of [priceConditionMet] after the [if ... else if] chain. *)
Definition priceConditionMet (ps : Params) (prev cur : Aligned) : bool :=
  let change := priceChange prev cur in
  let limit := Math_abs (price_threshold ps) in
  if bool_decide (price_condition ps = "down") && Qgeb change (- limit)%Q then false
  else if bool_decide (price_condition ps = "up") && Qleb change limit then false
  else if bool_decide (price_condition ps = "gap_down") && Qgeb change (- limit)%Q
       then Qleb (gapDown prev cur) (- limit)%Q
  else true.

Definition dayMatches (ps : Params) (prev cur : Aligned) : bool :=
  Qgeb (close (b cur)) (vix_threshold ps) && priceConditionMet ps prev cur.

Definition element (alignedData : list Aligned) (i : Z) : Completion Aligned :=
  match array_get alignedData i with
  | Some x => Return x
  | None => Throw (TypeError "b")
  end.

(** [_analyzeVolatility(parameters)].  [fetchVIX] is what
    [MarketDataService.getHistoricalData('^VIX')] settles to.  The body
    reads an identifier [data] that is neither a parameter nor a local;
    [data_binding] is what the enclosing scopes bind it to.  Neither the
    module nor anything else in the sources binds it: the program runs
    with [data_binding = None]. *)
Definition _analyzeVolatility (fetchVIX : Completion (list PricePoint))
    (data_binding : option (list PricePoint)) (ps : Params) : Completion Result :=
  let* vixData := fetchVIX in
  let* priceData := match data_binding with
                    | Some data => Return data
                    | None => Throw (mkError "data is not defined")
                    end in
  let alignedData := _alignDataSeries priceData vixData in
  let* matches :=
    for_each (range 1 (Z.of_nat (length alignedData)))
      (fun i matches =>
         let* cur := element alignedData i in
         let* prev := element alignedData (i - 1) in
         if dayMatches ps prev cur
         then Return (matches ++
                [ {| m_date := date (a cur); vix_level := close (b cur);
                     price_change := priceChange prev cur; price := close (a cur) |} ])
         else Return matches)
      [] in
  Return {| matches := matches;
            total_matches := length matches;
            avg_vix := if decide (0 < length matches)%nat
                       then (sumQ (vix_level <$> matches) / lengthQ matches)%Q
                       else 0%Q |}.

(** [analyze(data, parameters)] passes both arguments on; the algorithm
    has one formal parameter, the destructuring pattern, which is
    therefore matched against the array [data] and yields the defaults. *)
Definition analyze (fetchVIX : Completion (list PricePoint))
    (data_binding : option (list PricePoint))
    (data : list PricePoint) (parameters : Params)
  : Eff (BaseEventEngine.Engine * unit) (BaseEventEngine.Outcome Result) :=
  BaseEventEngine.safeExecute
    (fun '(data, parameters) => elift (_analyzeVolatility fetchVIX data_binding defaults))
    (data, parameters).

End VolatilityEngine.

(** ** TOYBarometerEngine (toy-barometer.js) *)

Module TOYBarometerEngine.

(** The engine object, the lines written with [console.warn] and
    [console.error], and the requests sent to the market-data service. *)
Record Engine : Type := mkEngine {
  name : string;
  description : string;
  isHealthy : bool;
  lastError : option string;
  successCount : N;
  errorCount : N;
  stderr : list string;
  requests : list (string * string)
}.

Definition constructor : Engine :=
  {| name := "TOY (Turn of Year)";
     description := "Wayne Whaley's Turn of Year seasonal pattern analysis";
     isHealthy := true; lastError := None; successCount := 0%N; errorCount := 0%N;
     stderr := []; requests := [] |}.

(** The request as received ([None]: property absent). *)
Record Parameters : Type := mkParameters {
  ticker : option string;
  first_year : option Z;
  last_year : option Z;
  toy_start : option string;
  toy_end : option string;
  threshold : option Q;
  forward_days : option (list Z)
}.

Inductive Signal : Type := Bullish | Bearish | Neutral.

Record Event : Type := mkEvent {
  e_date : Z;
  year : Z;
  toy_start_date : Z;
  toy_end_date : Z;
  toy_return : Q;
  e_signal : Signal;
  start_price : Q;
  end_price : Q;
  period_days : Z;
  forward : list (string * option Q)
}.

Record TOYResult : Type := mkTOYResult {
  event : Event;
  toyReturn : Q;
  signal : Signal;
  forwardReturns : list (string * option Q)
}.

(** The counting part of the summary; its other entries are texts made
    from these numbers. *)
Record Summary : Type := mkSummary {
  s_message : option string;
  bullish_periods : nat;
  bearish_periods : nat;
  neutral_periods : nat
}.

Record Data : Type := mkData {
  matches : list Event;
  total_periods : nat;
  summary : Summary;
  toyPeriods : list TOYResult
}.

(** *** MM-DD texts *)

Definition is_digit (c : ascii) : bool :=
  let n := nat_of_ascii c in (48 <=? n)%nat && (n <=? 57)%nat.
Definition digit_value (c : ascii) : Z := Z.of_nat (nat_of_ascii c) - 48.

(** One or two digits at the head of a text, the longest match first. *)
Definition digits12 (l : list ascii) : option (Z * list ascii) :=
  match l with
  | c1 :: c2 :: rest =>
      if is_digit c1 && is_digit c2 then Some (10 * digit_value c1 + digit_value c2, rest)
      else if is_digit c1 then Some (digit_value c1, c2 :: rest)
      else None
  | [c1] => if is_digit c1 then Some (digit_value c1, []) else None
  | [] => None
  end.

(** [s.split('-').map(x => parseInt(x))] for a text [s] that matches
    [/^\d{1,2}-\d{1,2}$/]; [None] for a text that does not match. *)
Definition parseMD (s : string) : option (Z * Z) :=
  match digits12 (list_ascii_of_string s) with
  | Some (m, c :: rest) =>
      if bool_decide (c = "-"%char) then
        match digits12 rest with
        | Some (d, []) => Some (m, d)
        | _ => None
        end
      else None
  | _ => None
  end.

Definition datePattern_test (s : string) : bool :=
  match parseMD s with Some _ => true | None => false end.

Definition validateTOYDates (toyStart toyEnd : string) : list string :=
  let errors :=
    (if datePattern_test toyStart then []
     else ["TOY start date must be in MM-DD format (e.g., 11-19)"]) ++
    (if datePattern_test toyEnd then []
     else ["TOY end date must be in MM-DD format (e.g., 01-19)"]) in
  match errors, parseMD toyStart, parseMD toyEnd with
  | [], Some (startMonth, startDay), Some (endMonth, endDay) =>
      (if bool_decide (startMonth < 1 \/ startMonth > 12)
       then ["Start month must be between 1-12"] else []) ++
      (if bool_decide (endMonth < 1 \/ endMonth > 12)
       then ["End month must be between 1-12"] else []) ++
      (if bool_decide (startDay < 1 \/ startDay > 31)
       then ["Start day must be between 1-31"] else []) ++
      (if bool_decide (endDay < 1 \/ endDay > 31)
       then ["End day must be between 1-31"] else [])
  | _, _, _ => errors
  end.

(** [validateParameters(parameters)]; [x && ...] skips a property that is
    absent, zero or the empty text. *)
Definition validateParameters (parameters : Parameters) : list string :=
  (match threshold parameters with
   | Some t => if negb (Qeq_bool t 0) && (Qltb t 0 || Qgtb t 20)
               then ["Threshold should be between 0% and 20%"] else []
   | None => []
   end) ++
  (match first_year parameters, last_year parameters with
   | Some f, Some l => if bool_decide (f <> 0) && bool_decide (l <> 0) && bool_decide (f >= l)
                       then ["First year must be before last year"] else []
   | _, _ => []
   end) ++
  (match toy_start parameters with
   | Some s => if bool_decide (s <> "") && negb (datePattern_test s)
               then ["TOY start date must be in MM-DD format"] else []
   | None => []
   end) ++
  (match toy_end parameters with
   | Some s => if bool_decide (s <> "") && negb (datePattern_test s)
               then ["TOY end date must be in MM-DD format"] else []
   | None => []
   end).

(** *** Trading-day lookup *)

(** An entry [{...item, index}] of the per-day table. *)
Definition Entry : Type := PricePoint * nat.

Definition buildDataByDate (data : list PricePoint) : gmap Z Entry :=
  foldl (fun m ie => <[ JsDate.isoDay (date ie.2) := (ie.2, ie.1) ]> m) ∅
        (imap (fun index item => (index, item)) data).

Definition has (dataByDate : gmap Z Entry) (key : Z) : bool :=
  bool_decide (is_Some (dataByDate !! key)).

Definition maxSearchDays : nat := 10.

(** The [for] loop of [findNearestTradingDay]: [n] iterations are left,
    [i] is the loop counter and [searchDate] the date object the loop
    keeps updating. *)
Fixpoint search (n : nat) (i : Z) (targetDate searchDate : Z)
    (dataByDate : gmap Z Entry) (direction : string) : option Z :=
  match n with
  | O => None
  | S n' =>
      let searchDate' :=
        if bool_decide (direction = "after")
        then JsDate.setDate searchDate (JsDate.getDate targetDate + i)
        else JsDate.setDate searchDate (JsDate.getDate targetDate - i) in
      let searchStr := JsDate.isoDay searchDate' in
      if has dataByDate searchStr then Some searchStr
      else search n' (i + 1) targetDate searchDate' dataByDate direction
  end.

Definition findNearestTradingDay (targetDate : Z) (dataByDate : gmap Z Entry)
    (direction : string) : option Z :=
  let targetStr := JsDate.isoDay targetDate in
  if has dataByDate targetStr then Some targetStr
  else search maxSearchDays 1 targetDate targetDate dataByDate direction.

(** *** One year *)

Definition mapDaysToLabel (days : Z) : string :=
  let labelMap : list (Z * string) :=
    [ (1, "1D"); (2, "2D"); (3, "3D"); (4, "4D"); (5, "1W");
      (10, "2W"); (15, "3W"); (20, "1M"); (21, "1M"); (40, "2M");
      (42, "2M"); (60, "3M"); (63, "3M"); (126, "6M"); (252, "12M") ] in
  match JsMap.get labelMap days with
  | Some label => label
  | None => pretty days +:+ "D"
  end.

Local Open Scope js_scope.

Definition point (data : list PricePoint) (i : Z) : Completion PricePoint :=
  match array_get data i with
  | Some p => Return p
  | None => Throw (TypeError "close")
  end.

Definition calculateForwardReturns (data : list PricePoint) (startIndex : Z)
    (forwardDays : list Z) : Completion (list (string * option Q)) :=
  let* start := point data startIndex in
  let startPrice := close start in
  for_each forwardDays
    (fun days returns =>
       let futureIndex := startIndex + days in
       if bool_decide (futureIndex < Z.of_nat (length data)) then
         let* future := point data futureIndex in
         let returnPct := ((close future - startPrice) / startPrice * 100)%Q in
         Return (JsMap.set returns (mapDaysToLabel days +:+ "_return") (Some returnPct))
       else
         Return (JsMap.set returns (mapDaysToLabel days +:+ "_return") None))
    [].

(** The [while] loop of [getTradingDaysBetween]; [n] bounds the turns
    that are left. *)
Fixpoint countTradingDays (n : nat) (currentDate endDate tradingDays : Z) : Z :=
  match n with
  | O => tradingDays
  | S n' =>
      if bool_decide (currentDate <= endDate) then
        let dayOfWeek := JsDate.getDay currentDate in
        countTradingDays n'
          (JsDate.setDate currentDate (JsDate.getDate currentDate + 1)) endDate
          (if bool_decide (dayOfWeek <> 0 /\ dayOfWeek <> 6)
           then tradingDays + 1 else tradingDays)
      else tradingDays
  end.

(** [getTradingDaysBetween(startDate, endDate)]: the loop advances one
    calendar day a turn, so one turn for each day from [startDate] to
    [endDate] exhausts it. *)
Definition getTradingDaysBetween (startDate endDate : Z) : Z :=
  countTradingDays (Z.to_nat ((endDate - startDate) / JsDate.msPerDay + 2))
    startDate endDate 0.

Definition classify (toyReturn threshold : Q) : Signal :=
  if Qgeb toyReturn threshold then Bullish
  else if Qltb toyReturn 0 then Bearish
  else Neutral.

Definition noTradingDays (year : Z) : JsError :=
  mkError ("No trading days found for TOY period " +:+ pretty year).
Definition missingPriceData (year : Z) : JsError :=
  mkError ("Missing price data for TOY period " +:+ pretty year).

(** [analyzeTOYPeriod], the second of the two definitions in the class
    body (the one in force). *)
Definition analyzeTOYPeriod (year : Z) (toyStartMD toyEndMD : string)
    (dataByDate : gmap Z Entry) (data : list PricePoint) (threshold : Q)
    (forwardDays : list Z) : Completion TOYResult :=
  match parseMD toyStartMD, parseMD toyEndMD with
  | Some (startMonth, startDay), Some (endMonth, endDay) =>
      let toyStartYear := year in
      let toyEndYear := if bool_decide (endMonth < startMonth) then year + 1 else year in
      let toyStart := JsDate.ofYMD toyStartYear (startMonth - 1) startDay in
      let toyEnd := JsDate.ofYMD toyEndYear (endMonth - 1) endDay in
      match findNearestTradingDay toyStart dataByDate "after",
            findNearestTradingDay toyEnd dataByDate "after" with
      | Some startTradingDay, Some endTradingDay =>
          match dataByDate !! startTradingDay, dataByDate !! endTradingDay with
          | Some (startData, _), Some (endData, endIndex) =>
              let toyReturn := ((close endData - close startData) / close startData * 100)%Q in
              let signal := classify toyReturn threshold in
              let* forwardReturns :=
                calculateForwardReturns data (Z.of_nat endIndex) forwardDays in
              let event :=
                {| e_date := date endData; year := year;
                   toy_start_date := date startData; toy_end_date := date endData;
                   toy_return := toyReturn; e_signal := signal;
                   start_price := close startData; end_price := close endData;
                   period_days := getTradingDaysBetween (date startData) (date endData);
                   forward := forwardReturns |} in
              Return {| event := event; toyReturn := toyReturn; signal := signal;
                        forwardReturns := forwardReturns |}
          | _, _ => Throw (missingPriceData year)
          end
      | _, _ => Throw (noTradingDays year)
      end
  | _, _ => Throw (mkError "Invalid time value")
  end.

Definition calculateTOYSummary (toyPeriods : list TOYResult) (threshold : Q) : Summary :=
  if bool_decide (length toyPeriods = 0%nat)
  then mkSummary (Some "No TOY periods analyzed") 0 0 0
  else
    mkSummary None
      (length (filter (fun p => Qgeb (toyReturn p) threshold = true) toyPeriods))
      (length (filter (fun p => Qltb (toyReturn p) 0 = true) toyPeriods))
      (length (filter (fun p => (Qgeb (toyReturn p) 0 && Qltb (toyReturn p) threshold) = true)
                      toyPeriods)).

(** *** The analysis *)

Definition console_warn (line : string) (this : Engine) : Engine :=
  {| name := name this; description := description this; isHealthy := isHealthy this;
     lastError := lastError this; successCount := successCount this;
     errorCount := errorCount this; stderr := stderr this ++ [line];
     requests := requests this |}.

Definition send (tickerName period : string) (this : Engine) : Engine :=
  {| name := name this; description := description this; isHealthy := isHealthy this;
     lastError := lastError this; successCount := successCount this;
     errorCount := errorCount this; stderr := stderr this;
     requests := requests this ++ [(tickerName, period)] |}.

Definition incSuccess (this : Engine) : Engine :=
  {| name := name this; description := description this; isHealthy := true;
     lastError := None; successCount := N.succ (successCount this);
     errorCount := errorCount this; stderr := stderr this; requests := requests this |}.

Definition incError (msg : string) (this : Engine) : Engine :=
  {| name := name this; description := description this; isHealthy := false;
     lastError := Some msg; successCount := successCount this;
     errorCount := N.succ (errorCount this); stderr := stderr this;
     requests := requests this |}.

Definition skipWarning (year : Z) (error : JsError) : string :=
  "⚠️ Skipping TOY " +:+ pretty year +:+ ": " +:+ message error.

(** The loop over the years, with its [try]/[catch] around each year. *)
Fixpoint analyzeYears (years : list Z) (toyStartMD toyEndMD : string)
    (dataByDate : gmap Z Entry) (data : list PricePoint) (threshold : Q)
    (forwardDays : list Z) (toyPeriods : list TOYResult) : Eff Engine (list TOYResult) :=
  match years with
  | [] => eret toyPeriods
  | year :: rest =>
      toyPeriods' <-
        etry
          (toyResult <- elift (analyzeTOYPeriod year toyStartMD toyEndMD dataByDate data
                                 threshold forwardDays) ;;
           eret (toyPeriods ++ [toyResult]))
          (fun error =>
             emodify (console_warn (skipWarning year error)) ;;;
             eret toyPeriods) ;;
      analyzeYears rest toyStartMD toyEndMD dataByDate data threshold forwardDays toyPeriods'
  end.

(** [MarketDataService.getHistoricalData(ticker, period)] as the engine
    sees it: the request goes out and settles to [fetch ticker period]. *)
Definition getHistoricalData (fetch : string -> string -> Completion (list PricePoint))
    (tickerName period : string) : Eff Engine (list PricePoint) :=
  emodify (send tickerName period) ;;;
  elift (fetch tickerName period).

(** [analyze(parameters)]; [currentYear] is [new Date().getFullYear()]. *)
Definition analyze (fetch : string -> string -> Completion (list PricePoint))
    (currentYear : Z) (parameters : Parameters)
  : Eff Engine (BaseEventEngine.Outcome Data) :=
  etry
    (let ticker := default "SPY" (ticker parameters) in
     let first_year := default 2000 (first_year parameters) in
     let last_year := default currentYear (last_year parameters) in
     let toy_start := default "11-19" (toy_start parameters) in
     let toy_end := default "01-19" (toy_end parameters) in
     let threshold := default 3.0%Q (threshold parameters) in
     let forward_days := default [5; 10; 15; 20; 40; 63; 126; 252]
                                 (forward_days parameters) in
     let dateErrors := validateTOYDates toy_start toy_end in
     (if bool_decide (0 < length dateErrors)%nat
      then ethrow (mkError ("Invalid TOY dates: " +:+ String.concat ", " dateErrors))
      else eret tt) ;;;
     data <- getHistoricalData fetch ticker "10y" ;;
     (if bool_decide (length data = 0%nat)
      then ethrow (mkError ("No data available for " +:+ ticker))
      else eret tt) ;;;
     let dataByDate := buildDataByDate data in
     toyPeriods <- analyzeYears (range first_year (last_year + 1)) toy_start toy_end
                     dataByDate data threshold forward_days [] ;;
     let events := event <$> toyPeriods in
     let summary := calculateTOYSummary toyPeriods threshold in
     emodify incSuccess ;;;
     eret (BaseEventEngine.Success
             {| matches := events; total_periods := length events;
                summary := summary; toyPeriods := toyPeriods |}))
    (fun error =>
       emodify (console_warn ("TOY analysis failed: " +:+ message error)) ;;;
       emodify (incError (message error)) ;;;
       eret (BaseEventEngine.Failure ("TOY analysis failed: " +:+ message error)
                                     "TOY engine is temporarily unavailable")).

End TOYBarometerEngine.

(** ** The arithmetic of the statistics *)

(** The forward-returns calculator works on the results of its own
    arithmetic, which is binary64.  A finite double is a rational and the
    comparisons of doubles are exact, so its numbers are kept in [Q]; its
    operations round, and are the fields of this record: [add x y] is the
    double the program gets for [x + y], and so on for [-], [*], [/],
    [Math.sqrt] and [Math.pow].  A run of the program in which one of
    them gives NaN or an infinity (a division by a close of 0, an
    overflow) has no counterpart here. *)
Record Arithmetic : Type := mkArithmetic {
  add : Q -> Q -> Q;
  sub : Q -> Q -> Q;
  mul : Q -> Q -> Q;
  div : Q -> Q -> Q;
  Math_sqrt : Q -> Q;
  Math_pow : Q -> Q -> Q
}.

(** ** ExtendedForwardReturnsCalculator (forward-returns.js) *)

Module ExtendedForwardReturnsCalculator.

(** What the calculator reads of a match: its date; [details] is the text
    [formatEventDetails] makes of the rest. *)
Record Match : Type := mkMatch {
  m_date : Z;
  details : string
}.

(** An entry of [performanceData]. *)
Record Perf : Type := mkPerf {
  returns : list Q;
  winCount : nat;
  totalCount : nat
}.

(** A row of [results]; a cell is the return behind the formatted text,
    [None] for 'N/A'. *)
Record Row : Type := mkRow {
  matchDate : Z;
  price : Q;
  eventDetails : string;
  cells : list (string * option Q)
}.

(** A row of the performance table, with the numbers behind its texts
    ([None]: 'N/A', or the property is absent). *)
Record PerformanceRow : Type := mkPerformanceRow {
  timeframe : string;
  best : option Q;
  worst : option Q;
  volatility : option Q;
  samples : nat;
  avgReturnRaw : option Q;
  winRateRaw : option Q;
  returnVolRatio : option Q
}.

Record PerformanceTable : Type := mkPerformanceTable {
  headers : list string;
  rows : list PerformanceRow;
  t_message : option string
}.

Record PeriodStats : Type := mkPeriodStats {
  ps_avg : Q; ps_winRate : Q; ps_best : Q; ps_worst : Q; ps_volatility : Q; ps_ratio : Q
}.

Record Summary : Type := mkSummary {
  totalMatches : nat;
  s_message : option string;
  periodStats : list (string * option PeriodStats);
  bestTimeframe : option string
}.

Record Metadata : Type := mkMetadata {
  md_totalMatches : nat;
  dataPointsAnalyzed : nat;
  timeframes : list string
}.

Record Result : Type := mkResult {
  results : list Row;
  summary : Summary;
  performanceTable : PerformanceTable;
  metadata : option Metadata
}.

Definition defaultPeriods : list (string * Z) :=
  [ ("1D", 1); ("2D", 2); ("3D", 3); ("4D", 4); ("1W", 5); ("2W", 10);
    ("1M", 21); ("2M", 42); ("3M", 63); ("6M", 126); ("12M", 252) ].

Definition tableHeaders : list string :=
  ["Timeframe"; "Avg Return"; "Win Rate"; "Best"; "Worst"; "Volatility"; "Samples"].

Definition getEmptyPerformanceTable : PerformanceTable :=
  {| headers := tableHeaders; rows := [];
     t_message := Some "No historical matches found for analysis" |}.

(** [Math.max(...xs)] and [Math.min(...xs)] of a non-empty array. *)
Definition Math_max (xs : list Q) : Q :=
  match xs with
  | [] => 0%Q
  | x :: xs' => fold_left (fun m y => if Qgtb y m then y else m) xs' x
  end.
Definition Math_min (xs : list Q) : Q :=
  match xs with
  | [] => 0%Q
  | x :: xs' => fold_left (fun m y => if Qltb y m then y else m) xs' x
  end.

Section WithArithmetic.

Variable ar : Arithmetic.

(** [xs.reduce((sum, ret) => sum + ret, 0)]. *)
Definition total (xs : list Q) : Q := fold_left (add ar) xs 0%Q.

Definition average (xs : list Q) : Q := div ar (total xs) (lengthQ xs).

Definition variance (xs : list Q) : Q :=
  let avgReturn := average xs in
  div ar (fold_left (fun sum ret => add ar sum (Math_pow ar (sub ar ret avgReturn) 2)) xs 0%Q)
         (lengthQ xs).

Definition winRate (p : Perf) : Q :=
  mul ar (div ar (inject_Z (Z.of_nat (winCount p))) (inject_Z (Z.of_nat (totalCount p)))) 100.

Definition stdDev (xs : list Q) : Q := Math_sqrt ar (variance xs).

Definition returnVolatilityRatio (xs : list Q) : Q :=
  if Qgtb (stdDev xs) 0 then div ar (average xs) (stdDev xs) else 0%Q.

Definition tableRow (entry : string * Perf) : PerformanceRow :=
  let '(period, data) := entry in
  if bool_decide (0 < length (returns data))%nat then
    {| timeframe := period;
       best := Some (Math_max (returns data));
       worst := Some (Math_min (returns data));
       volatility := Some (stdDev (returns data));
       samples := totalCount data;
       avgReturnRaw := Some (average (returns data));
       winRateRaw := Some (winRate data);
       returnVolRatio := Some (returnVolatilityRatio (returns data)) |}
  else
    {| timeframe := period; best := None; worst := None; volatility := None;
       samples := 0; avgReturnRaw := None; winRateRaw := None;
       returnVolRatio := None |}.

(** [row.returnVolRatio || 0]. *)
Definition sortKey (row : PerformanceRow) : Q :=
  match returnVolRatio row with
  | Some ratio => ratio
  | None => 0%Q
  end.

(** [(a, b) => (b.returnVolRatio || 0) - (a.returnVolRatio || 0)] is at
    most zero. *)
Definition byRatio (a b : PerformanceRow) : bool :=
  Qleb (sub ar (sortKey b) (sortKey a)) 0.

Definition generatePerformanceTable (performanceData : list (string * Perf))
  : PerformanceTable :=
  {| headers := tableHeaders;
     rows := Array_sort byRatio (tableRow <$> performanceData);
     t_message := None |}.

Definition score (p : Perf) : Q := mul ar (average (returns p)) (div ar (winRate p) 100).

Definition findBestPerformingPeriods (performanceData : list (string * Perf))
  : list string :=
  let periods := filter (fun e => (0 < length (returns e.2))%nat) performanceData in
  fst <$> Array_sort (fun a b => Qleb (sub ar (score b.2) (score a.2)) 0) periods.

Definition calculateSummaryStats (performanceData : list (string * Perf))
    (totalMatches : nat) : Summary :=
  {| totalMatches := totalMatches;
     s_message := None;
     periodStats :=
       (fun '(period, data) =>
          (period,
           if bool_decide (0 < length (returns data))%nat
           then Some {| ps_avg := average (returns data);
                        ps_winRate := winRate data;
                        ps_best := Math_max (returns data);
                        ps_worst := Math_min (returns data);
                        ps_volatility := stdDev (returns data);
                        ps_ratio := returnVolatilityRatio (returns data) |}
           else None)) <$> performanceData;
     bestTimeframe := head (findBestPerformingPeriods performanceData) |}.

Local Open Scope js_scope.

Definition buildDataByDate (data : list PricePoint) : gmap Z (PricePoint * nat) :=
  foldl (fun m ie => <[ JsDate.isoDay (date ie.2) := (ie.2, ie.1) ]> m) ∅
        (imap (fun index item => (index, item)) data).

Definition futurePoint (data : list PricePoint) (i : Z) : Completion PricePoint :=
  match array_get data i with
  | Some p => Return p
  | None => Throw (TypeError "close")
  end.

Definition recordReturn (returnPct : Q) (p : Perf) : Perf :=
  {| returns := returns p ++ [returnPct];
     winCount := if Qgtb returnPct 0 then S (winCount p) else winCount p;
     totalCount := S (totalCount p) |}.

(** The inner loop: the forward returns of one match. *)
Definition forwardCells (data : list PricePoint) (current : PricePoint * nat)
    (periods : list (string * Z)) (performanceData : list (string * Perf))
  : Completion (list (string * option Q) * list (string * Perf)) :=
  for_each periods
    (fun '(label, days) '(cells, performanceData) =>
       let futureIndex := Z.of_nat current.2 + days in
       if bool_decide (futureIndex < Z.of_nat (length data)) then
         let* future := futurePoint data futureIndex in
         let returnPct :=
           mul ar (div ar (sub ar (close future) (close current.1)) (close current.1)) 100 in
         Return (JsMap.set cells label (Some returnPct),
                 JsMap.alter (recordReturn returnPct) performanceData label)
       else Return (JsMap.set cells label None, performanceData))
    ([], performanceData).

(** The loop over the matches; the state is [results] and
    [performanceData], the world the lines written with [console.warn]. *)
Fixpoint processMatches (data : list PricePoint) (dataByDate : gmap Z (PricePoint * nat))
    (periods : list (string * Z)) (matches : list Match)
    (results : list Row) (performanceData : list (string * Perf))
  : Eff (list string) (list Row * list (string * Perf)) :=
  match matches with
  | [] => eret (results, performanceData)
  | m :: rest =>
      let matchDateStr := JsDate.isoDay (m_date m) in
      match dataByDate !! matchDateStr with
      | None =>
          emodify (fun log => log ++ ["⚠️ No data found for match date: "
                                        +:+ JsDate.isoText matchDateStr]) ;;;
          processMatches data dataByDate periods rest results performanceData
      | Some currentData =>
          out <- elift (forwardCells data currentData periods performanceData) ;;
          processMatches data dataByDate periods rest
            (results ++ [ {| matchDate := matchDateStr; price := close currentData.1;
                             eventDetails := details m; cells := out.1 |} ])
            out.2
      end
  end.

Definition emptyResult : Result :=
  {| results := [];
     summary := {| totalMatches := 0;
                   s_message := Some "No historical instances found for this event pattern";
                   periodStats := []; bestTimeframe := None |};
     performanceTable := getEmptyPerformanceTable;
     metadata := None |}.

(** [performanceData] as initialised from the keys of [periods]. *)
Definition initialPerformanceData (periods : list (string * Z)) : list (string * Perf) :=
  (fun e => (e.1, mkPerf [] 0 0)) <$> periods.

(** [calculate(data, matches, customPeriods)]; [None] is [null] or
    [undefined].  The timeframes are the entries of the object
    [customPeriods || this.defaultPeriods] in the order [Object.entries]
    gives them; being keys of an object, the labels are distinct. *)
Definition calculate (data : list PricePoint) (matches : option (list Match))
    (customPeriods : option (list (string * Z))) : Eff (list string) Result :=
  match matches with
  | None | Some [] => eret emptyResult
  | Some matches =>
      let periods := default defaultPeriods customPeriods in
      let dataByDate := buildDataByDate data in
      out <- processMatches data dataByDate periods matches []
               (initialPerformanceData periods) ;;
      let '(results, performanceData) := out in
      eret {| results := results;
              summary := calculateSummaryStats performanceData (length matches);
              performanceTable := generatePerformanceTable performanceData;
              metadata := Some {| md_totalMatches := length matches;
                                  dataPointsAnalyzed := length results;
                                  timeframes := fst <$> periods |} |}
  end.

End WithArithmetic.

End ExtendedForwardReturnsCalculator.

(** ** ContextualFilterService (contextual-filters.js) *)

Module ContextualFilterService.

Record Season : Type := mkSeason {
  quarter : string;
  s_year : Z;
  s_start : Z;
  s_end : Z
}.

Record Meeting : Type := mkMeeting {
  mt_date : Z;
  mt_type : string;
  mt_year : Z
}.

Record Expiration : Type := mkExpiration {
  x_date : Z;
  x_type : string;
  x_year : Z;
  x_month : Z;
  triple_witching : bool
}.

Record AdditionalFilters : Type := mkAdditionalFilters {
  day_filter : option (list string);
  month_filter : option (list Z)
}.

(** The three table builders memoise their result under a key made of
    the two years; a table is a function of these two years alone, so a
    hit returns what a miss computes and the tables are given here as
    functions. *)
Definition getEarningsSeasonDates (startYear endYear : Z) : list Season :=
  year ← range startYear (endYear + 1);
  [ mkSeason "Q1" year (JsDate.ofYMD year 3 15) (JsDate.ofYMD year 4 15);
    mkSeason "Q2" year (JsDate.ofYMD year 6 15) (JsDate.ofYMD year 7 15);
    mkSeason "Q3" year (JsDate.ofYMD year 9 15) (JsDate.ofYMD year 10 15) ] ++
  (if bool_decide (year < endYear)
   then [ mkSeason "Q4" year (JsDate.ofYMD (year + 1) 0 15) (JsDate.ofYMD (year + 1) 1 15) ]
   else []).

Definition fomc (year monthIndex day : Z) : Meeting :=
  mkMeeting (JsDate.ofYMD year monthIndex day) "FOMC Decision" year.
Definition emergency (year monthIndex day : Z) : Meeting :=
  mkMeeting (JsDate.ofYMD year monthIndex day) "Emergency Cut" year.

Definition fedMeetings : list Meeting :=
  [ fomc 2020 0 29; emergency 2020 2 15; emergency 2020 2 3; fomc 2020 3 29;
    fomc 2020 5 10; fomc 2020 6 29; fomc 2020 8 16; fomc 2020 10 5; fomc 2020 11 16;
    fomc 2021 0 27; fomc 2021 2 17; fomc 2021 3 28; fomc 2021 5 16;
    fomc 2021 6 28; fomc 2021 8 22; fomc 2021 10 3; fomc 2021 11 15;
    fomc 2022 0 26; fomc 2022 2 16; fomc 2022 4 4; fomc 2022 5 15;
    fomc 2022 6 27; fomc 2022 8 21; fomc 2022 10 2; fomc 2022 11 14;
    fomc 2023 1 1; fomc 2023 2 22; fomc 2023 4 3; fomc 2023 5 14;
    fomc 2023 6 26; fomc 2023 8 20; fomc 2023 10 1; fomc 2023 11 13;
    fomc 2024 0 31; fomc 2024 2 20; fomc 2024 4 1; fomc 2024 5 12;
    fomc 2024 6 31; fomc 2024 8 18; fomc 2024 10 7; fomc 2024 11 18 ].

Definition getFedMeetingDates (startYear endYear : Z) : list Meeting :=
  filter (fun meeting => mt_year meeting >= startYear /\ mt_year meeting <= endYear)
         fedMeetings.

Definition getThirdFriday (year month : Z) : Z :=
  let firstDay := JsDate.ofYMD year month 1 in
  let firstFriday := JsDate.ofYMD year month (1 + (5 - JsDate.getDay firstDay + 7) mod 7) in
  JsDate.setDate firstFriday (JsDate.getDate firstFriday + 14).

Definition getOptionsExpirationDates (startYear endYear : Z) : list Expiration :=
  year ← range startYear (endYear + 1);
  month ← range 0 12;
  let thirdFriday := getThirdFriday year month in
  mkExpiration thirdFriday "Monthly Options Expiration" year (month + 1) false ::
  (if bool_decide (month ∈ [2; 5; 8; 11])
   then [ mkExpiration thirdFriday "Quarterly Options Expiration (Triple Witching)"
                       year (month + 1) true ]
   else []).

(** [new Date(d)] with [d] moved by [n] days through
    [setDate(getDate() + n)]. *)
Definition shifted (d n : Z) : Z := JsDate.setDate d (JsDate.getDate d + n).

(** The three regime predicates; the argument is the time value of the
    date, [None] for an invalid date, which compares false with
    everything. *)
Definition isEarningsSeason (date : option Z) : bool :=
  match date with
  | Some d => existsb (fun season => bool_decide (d >= s_start season)
                                     && bool_decide (d <= s_end season))
                      (getEarningsSeasonDates 2020 2024)
  | None => false
  end.

Definition isFedMeetingWeek (date : option Z) : bool :=
  match date with
  | Some d => existsb (fun meeting =>
                         let weekStart := shifted (mt_date meeting) (-3) in
                         let weekEnd := shifted (mt_date meeting) 3 in
                         bool_decide (d >= weekStart) && bool_decide (d <= weekEnd))
                      (getFedMeetingDates 2020 2024)
  | None => false
  end.

Definition isOptionsExpirationWeek (date : option Z) : bool :=
  match date with
  | Some d => existsb (fun exp =>
                         let weekStart := shifted (x_date exp) (-4) in
                         let weekEnd := shifted (x_date exp) 2 in
                         bool_decide (d >= weekStart) && bool_decide (d <= weekEnd))
                      (getOptionsExpirationDates 2020 2024)
  | None => false
  end.

(** [toUpperCase], on the letters a to z. *)
Definition upper_char (c : ascii) : ascii :=
  let n := nat_of_ascii c in
  if (97 <=? n)%nat && (n <=? 122)%nat then ascii_of_nat (n - 32) else c.
Definition toUpperCase (s : string) : string :=
  string_of_list_ascii (upper_char <$> list_ascii_of_string s).

Definition dayMap : list (string * Z) :=
  [ ("SUNDAY", 0); ("MONDAY", 1); ("TUESDAY", 2); ("WEDNESDAY", 3);
    ("THURSDAY", 4); ("FRIDAY", 5); ("SATURDAY", 6) ].

Section WithDateParser.

(** [new Date(text)]: the time value, [None] for an invalid date. *)
Variable Date_parse : string -> option Z.

(** [targetDayNumbers] may hold [undefined] ([None]), which no day of
    the week equals. *)
Definition filterByDayOfWeek (dates : list string) (targetDays : list string)
  : list string :=
  let targetDayNumbers := (fun day => JsMap.get dayMap (toUpperCase day)) <$> targetDays in
  filter (fun date => match Date_parse date with
                      | Some t => bool_decide (Some (JsDate.getDay t) ∈ targetDayNumbers)
                      | None => false
                      end = true) dates.

(** One turn of the loop of [applyContextFilters]: the [switch]. *)
Definition applyFilter (additionalFilters : AdditionalFilters)
    (filteredDates : list string) (filter_name : string) : list string :=
  if bool_decide (filter_name = "EARNINGS_SEASON") then
    filter (fun dateStr => isEarningsSeason (Date_parse dateStr) = true) filteredDates
  else if bool_decide (filter_name = "FED_MEETING") then
    filter (fun dateStr => isFedMeetingWeek (Date_parse dateStr) = true) filteredDates
  else if bool_decide (filter_name = "OPTIONS_EXPIRATION") then
    filter (fun dateStr => isOptionsExpirationWeek (Date_parse dateStr) = true)
           filteredDates
  else if bool_decide (filter_name = "DAY_OF_WEEK") then
    match day_filter additionalFilters with
    | Some days => filterByDayOfWeek filteredDates days
    | None => filteredDates
    end
  else if bool_decide (filter_name = "MONTH_OF_YEAR") then
    match month_filter additionalFilters with
    | Some months =>
        filter (fun dateStr => match Date_parse dateStr with
                               | Some t => bool_decide (JsDate.getMonth t + 1 ∈ months)
                               | None => false
                               end = true) filteredDates
    | None => filteredDates
    end
  else filteredDates.

Definition applyContextFilters (dates : list string) (filters : list string)
    (additionalFilters : AdditionalFilters) : list string :=
  foldl (applyFilter additionalFilters) dates filters.

End WithDateParser.

Definition knownFilters : list string :=
  ["EARNINGS_SEASON"; "FED_MEETING"; "OPTIONS_EXPIRATION"; "DAY_OF_WEEK"; "MONTH_OF_YEAR"].

End ContextualFilterService.

(** ** Notions used in the statements *)

(** The gap of the momentum engine, in milliseconds. *)
Definition gap : Z := MomentumEngine.minGapDays * JsDate.msPerDay.

(** Later matches end at least [gap] after earlier ones. *)
Definition spaced (ms : list MomentumEngine.Match) : Prop :=
  forall (i j : nat) mi mj, (i < j)%nat -> ms !! i = Some mi -> ms !! j = Some mj ->
    MomentumEngine.m_date mi + gap <= MomentumEngine.m_date mj.

(** The invariant of the scan: no match ends after the last match date,
    and the matches are spaced. *)
Definition scan_inv (st : MomentumEngine.Scan) : Prop :=
  (forall m, m ∈ MomentumEngine.s_matches st ->
     exists l, MomentumEngine.lastMatchDate st = Some l /\ MomentumEngine.m_date m <= l) /\
  spaced (MomentumEngine.s_matches st).

(** Sorting by a rational key, largest first: the comparison the sort
    uses, the order it establishes, and the rows of a given key. *)
Definition key_ge {A} (key : A -> Q) (x y : A) : bool := Qleb (key y - key x) 0.
Definition after_or_level {A} (key : A -> Q) (x y : A) : Prop := (key y <= key x)%Q.
Definition has_key {A} (key : A -> Q) (k : Q) (x : A) : Prop := Qeq_bool (key x) k = true.

#[global] Instance has_key_dec {A} (key : A -> Q) k x : Decision (has_key key k x).
Proof. unfold has_key. apply _. Defined.

(** The outcome of one year of the TOY analysis: its period when the year
    resolves, its warning when the year throws. *)
Definition analysed (toyStartMD toyEndMD : string)
    (dataByDate : gmap Z TOYBarometerEngine.Entry) (data : list PricePoint)
    (threshold : Q) (forwardDays : list Z) (y : Z) : option TOYBarometerEngine.TOYResult :=
  match TOYBarometerEngine.analyzeTOYPeriod y toyStartMD toyEndMD dataByDate data
          threshold forwardDays with
  | Return p => Some p
  | Throw _ => None
  end.

Definition skipped (toyStartMD toyEndMD : string)
    (dataByDate : gmap Z TOYBarometerEngine.Entry) (data : list PricePoint)
    (threshold : Q) (forwardDays : list Z) (y : Z) : option string :=
  match TOYBarometerEngine.analyzeTOYPeriod y toyStartMD toyEndMD dataByDate data
          threshold forwardDays with
  | Return _ => None
  | Throw e => Some (TOYBarometerEngine.skipWarning y e)
  end.

Definition add_warnings (lines : list string) (this : TOYBarometerEngine.Engine)
  : TOYBarometerEngine.Engine :=
  foldl (fun this line => TOYBarometerEngine.console_warn line this) this lines.

(** ** The statistics of a timeframe in the words of the specification *)

(** The forward returns of a timeframe: for every match, in the order of
    the matches, whose day is a day of the series and whose offset stays
    within the series, the percent change of the close from the match to
    [days] sessions later.  When several points of the series fall on the
    day of a match, the last one counts. *)
Fixpoint day_index (data : list PricePoint) (day : Z) : option nat :=
  match data with
  | [] => None
  | p :: rest =>
      match day_index rest day with
      | Some i => Some (S i)
      | None => if bool_decide (JsDate.isoDay (date p) = day) then Some 0%nat else None
      end
  end.

Definition return_from (ar : Arithmetic) (data : list PricePoint) (days : Z)
    (i : nat) (cur : PricePoint) : option Q :=
  if bool_decide (Z.of_nat i + days < Z.of_nat (length data)) then
    fut ← array_get data (Z.of_nat i + days);
    Some (mul ar (div ar (sub ar (close fut) (close cur)) (close cur)) 100)
  else None.

Definition forward_return (ar : Arithmetic) (data : list PricePoint) (days : Z)
    (m : ExtendedForwardReturnsCalculator.Match) : option Q :=
  i ← day_index data (JsDate.isoDay (ExtendedForwardReturnsCalculator.m_date m));
  cur ← data !! i;
  return_from ar data days i cur.

Definition forward_returns (ar : Arithmetic) (data : list PricePoint) (days : Z)
    (matches : list ExtendedForwardReturnsCalculator.Match) : list Q :=
  omap (forward_return ar data days) matches.

(** Average return divided by the population standard deviation (the
    square root of the mean squared deviation from the average) when that
    is positive, and 0 otherwise.  The numbers are added one after the
    other from the first to the last, starting from 0, each sum rounded. *)
Module RatioSpec.
Section WithArithmetic.
Variable ar : Arithmetic.

Definition added_up (xs : list Q) : Q := foldr (fun x acc => add ar acc x) 0%Q (rev xs).

Definition how_many (xs : list Q) : Q := Z.of_nat (length xs) # 1.

Definition mean (xs : list Q) : Q := div ar (added_up xs) (how_many xs).

Definition squared_deviations (xs : list Q) : list Q :=
  (fun x => Math_pow ar (sub ar x (mean xs)) 2) <$> xs.

Definition population_stdev (xs : list Q) : Q :=
  Math_sqrt ar (div ar (added_up (squared_deviations xs)) (how_many xs)).

Definition ratio (xs : list Q) : Q :=
  if Qlt_le_dec 0 (population_stdev xs)
  then div ar (mean xs) (population_stdev xs)
  else 0%Q.

End WithArithmetic.
End RatioSpec.

(** The ratio a row of the performance table is ranked by: its
    [returnVolRatio], and 0 for a row that has none. *)
Definition ratio_or_zero (row : ExtendedForwardReturnsCalculator.PerformanceRow) : Q :=
  match ExtendedForwardReturnsCalculator.returnVolRatio row with
  | Some r => r
  | None => 0%Q
  end.

(** The subtraction is exact in sign on the ratios of a table: the
    rounded difference of two of them is at most 0 exactly when the
    difference is.  Binary64 subtraction has this property for all finite
    doubles. *)
Definition sign_exact_on (ar : Arithmetic)
    (table : list ExtendedForwardReturnsCalculator.PerformanceRow) : Prop :=
  Forall (fun a =>
    Forall (fun b =>
      Qle_bool (sub ar (ratio_or_zero b) (ratio_or_zero a)) 0
      = Qle_bool (ratio_or_zero b) (ratio_or_zero a)) table) table.

(** The entry of [performanceData] that belongs to a list of returns, and
    an entry after one more return, if there is one. *)
Definition perf_of (rs : list Q) : ExtendedForwardReturnsCalculator.Perf :=
  ExtendedForwardReturnsCalculator.mkPerf rs
    (length (filter (fun x => Qgtb x 0 = true) rs)) (length rs).

Definition with_return (o : option Q) (p : ExtendedForwardReturnsCalculator.Perf)
  : ExtendedForwardReturnsCalculator.Perf :=
  match o with
  | Some x => ExtendedForwardReturnsCalculator.recordReturn x p
  | None => p
  end.

(** ** Example inputs *)

(** A run with two matches: the windows ending on days 100 and 140 are
    recorded, the one ending on day 110 is passed over. *)
Definition gap_heap : Heap :=
  [ pricePoint (0 * JsDate.msPerDay) 10 10 10 10 1000;
    pricePoint (10 * JsDate.msPerDay) 11 11 11 11 1000;
    pricePoint (20 * JsDate.msPerDay) 12 12 12 12 1000;
    pricePoint (100 * JsDate.msPerDay) 13 13 13 13 1000;
    pricePoint (110 * JsDate.msPerDay) 14 14 14 14 1000;
    pricePoint (140 * JsDate.msPerDay) 15 15 15 15 1000 ].
Definition gap_data : list ref := [0; 1; 2; 3; 4; 5]%nat.
Definition gap_params : MomentumEngine.Params :=
  MomentumEngine.mkParams 2 1 "bullish" 1.2%Q.
Definition gap_run : Completion MomentumEngine.Result * Heap :=
  Eval vm_compute in MomentumEngine._analyzeMomentum gap_data gap_params gap_heap.
Definition gap_match (i : nat) : option MomentumEngine.Match :=
  match gap_run.1 with
  | Return r => MomentumEngine.matches r !! i
  | Throw _ => None
  end.

(** Binary64 arithmetic on rationals, to run the calculator on concrete
    numbers: every operation returns the double nearest to the exact
    result, ties to even.  The exponent range is not limited, so there is
    no overflow and no underflow. *)
Module Binary64.

(** [k * 2^e] as a rational. *)
Definition scaled (k e : Z) : Q :=
  Qred (if (0 <=? e) then inject_Z (k * 2 ^ e) else k # Z.to_pos (2 ^ (- e))).

(** The quotient of [n / (d * 2^e)], what is left, and the divisor. *)
Definition quotient (n d e : Z) : Z * Z * Z :=
  let num := if (0 <=? e) then n else n * 2 ^ (- e) in
  let den := if (0 <=? e) then d * 2 ^ e else d in
  (num / den, num mod den, den).

Definition nearest (k r den : Z) : Z :=
  match 2 * r ?= den with
  | Lt => k
  | Gt => k + 1
  | Eq => if Z.even k then k else k + 1
  end.

Definition round_pos (n d : Z) : Q :=
  let e0 := Z.log2 n - Z.log2 d - 53 in
  let '(k0, _, _) := quotient n d e0 in
  let e := if (2 ^ 53 <=? k0) then e0 + 1 else e0 in
  let '(k, r, den) := quotient n d e in
  scaled (nearest k r den) e.

Definition round53 (q : Q) : Q :=
  match Qnum q with
  | 0 => 0%Q
  | Zpos n => round_pos (Zpos n) (Zpos (Qden q))
  | Zneg n => Qopp (round_pos (Zpos n) (Zpos (Qden q)))
  end.

Definition sqrt_pos (n d : Z) : Q :=
  let e0 := (Z.log2 n - Z.log2 d - 105) / 2 in
  let y0 := (quotient n d (2 * e0)).1.1 in
  let e := if (2 ^ 53 <=? Z.sqrt y0) then e0 + 1 else e0 in
  let '(y, r, den) := quotient n d (2 * e) in
  let k := Z.sqrt y in
  scaled (match 4 * (y * den + r) ?= (2 * k + 1) * (2 * k + 1) * den with
          | Lt => k
          | Gt => k + 1
          | Eq => if Z.even k then k else k + 1
          end) e.

Definition sqrt (q : Q) : Q :=
  match Qnum q with
  | Zpos n => sqrt_pos (Zpos n) (Zpos (Qden q))
  | _ => 0%Q
  end.

(** The exponent of [Math_pow] is a whole number ([Math.pow(x, 2)] in the
    program). *)
Definition arithmetic : Arithmetic :=
  {| add := fun x y => round53 (x + y)%Q;
     sub := fun x y => round53 (x - y)%Q;
     mul := fun x y => round53 (x * y)%Q;
     div := fun x y => round53 (x / y)%Q;
     Math_sqrt := sqrt;
     Math_pow := fun x y => round53 (Qpower x (Qnum y)) |}.

End Binary64.

Definition day_point (day : Z) (price : Q) : PricePoint :=
  pricePoint (day * JsDate.msPerDay) price price price price 1000.

(** Seven sessions and three matches, with two timeframes.  The three
    one-day returns are equal; in binary64 their average is one unit in
    the last place off, the standard deviation is 2^-50 and the ratio of
    the one-day timeframe is about 6.25e15. *)
Definition fr_data : list PricePoint :=
  [ day_point 100 90; day_point 101 95; day_point 102 90; day_point 103 95;
    day_point 104 90; day_point 105 95; day_point 106 99 ].
Definition fr_matches : list ExtendedForwardReturnsCalculator.Match :=
  [ ExtendedForwardReturnsCalculator.mkMatch (100 * JsDate.msPerDay) "Event occurred";
    ExtendedForwardReturnsCalculator.mkMatch (102 * JsDate.msPerDay) "Event occurred";
    ExtendedForwardReturnsCalculator.mkMatch (104 * JsDate.msPerDay) "Event occurred" ].
Definition fr_periods : list (string * Z) := [("2D", 2); ("1D", 1)].
Definition fr_run : Completion ExtendedForwardReturnsCalculator.Result * list string :=
  Eval vm_compute in
    ExtendedForwardReturnsCalculator.calculate Binary64.arithmetic fr_data (Some fr_matches)
      (Some fr_periods) [].

(** A parser for YYYY-MM-DD texts (midnight UTC of a day that exists), to
    run the filters on concrete dates. *)
Definition parseISODay (s : string) : option Z :=
  match list_ascii_of_string s with
  | [y1; y2; y3; y4; s1; m1; m2; s2; d1; d2] =>
      let dv := TOYBarometerEngine.digit_value in
      let y := 1000 * dv y1 + 100 * dv y2 + 10 * dv y3 + dv y4 in
      let m := 10 * dv m1 + dv m2 in
      let d := 10 * dv d1 + dv d2 in
      if forallb TOYBarometerEngine.is_digit [y1; y2; y3; y4; m1; m2; d1; d2]
         && bool_decide (s1 = "-"%char) && bool_decide (s2 = "-"%char)
         && bool_decide (JsDate.civil_from_days (JsDate.days_from_civil y m d) = (y, m, d))
      then Some (JsDate.ymd y m d)
      else None
  | _ => None
  end.

Definition cf_dates : list string := ["2024-01-30"; "2024-02-05"; "2024-02-10"].
Definition cf_filters : list string := ["FED_MEETING"; "WEEKEND"; "DAY_OF_WEEK"].
Definition cf_additional : ContextualFilterService.AdditionalFilters :=
  ContextualFilterService.mkAdditionalFilters None None.

(** Two sessions: the price opens 3% below the previous close, the
    volatility index closes at 30 on both days. *)
Definition vol_prices : list PricePoint :=
  [ mkPricePoint (100 * JsDate.msPerDay) 100 100 100 100 1000 None;
    mkPricePoint (101 * JsDate.msPerDay) 97 97 96 96 1000 None ].
Definition vol_vix : list PricePoint := [ day_point 100 30; day_point 101 30 ].
Definition vol_params : VolatilityEngine.Params :=
  VolatilityEngine.mkParams "SPY" 25 "gap_down" 2.
Definition vol_prev : VolatilityEngine.Aligned :=
  VolatilityEngine.mkAligned (100 * JsDate.msPerDay)
    (mkPricePoint (100 * JsDate.msPerDay) 100 100 100 100 1000 None) (day_point 100 30).
Definition vol_cur : VolatilityEngine.Aligned :=
  VolatilityEngine.mkAligned (101 * JsDate.msPerDay)
    (mkPricePoint (101 * JsDate.msPerDay) 97 97 96 96 1000 None) (day_point 101 30).

(** Sessions around the turn of 2023: Friday 29 December, Tuesday 2 January
    and Friday 2 February. *)
Definition session (y m d : Z) (price : Q) : PricePoint :=
  pricePoint (JsDate.ymd y m d) price price price price 1000.
Definition turn_sessions : list PricePoint :=
  [ session 2023 12 29 100; session 2024 1 2 101; session 2024 2 2 102 ].
Definition turn_sessions_short : list PricePoint :=
  [ session 2023 12 29 100; session 2024 1 2 101 ].
(** [new Date(2023, 11, 30)], a Saturday. *)
Definition turn_target : Z := JsDate.ofYMD 2023 11 30.

(** A request with a threshold of 50% and the first year equal to the last,
    and a series that holds the two boundary days of the 2021 window. *)
Definition toy_request : TOYBarometerEngine.Parameters :=
  {| TOYBarometerEngine.ticker := None;
     TOYBarometerEngine.first_year := Some 2021;
     TOYBarometerEngine.last_year := Some 2021;
     TOYBarometerEngine.toy_start := None;
     TOYBarometerEngine.toy_end := None;
     TOYBarometerEngine.threshold := Some 50%Q;
     TOYBarometerEngine.forward_days := None |}.
Definition toy_series : list PricePoint :=
  [ session 2021 11 19 100; session 2021 11 22 101; session 2022 1 19 105 ].
Definition toy_fetch (tickerName period : string) : Completion (list PricePoint) :=
  Return toy_series.

(** A request for 2020 to 2022 against the same series: only the 2021
    window has its boundary days. *)
Definition toy_request3 : TOYBarometerEngine.Parameters :=
  {| TOYBarometerEngine.ticker := None;
     TOYBarometerEngine.first_year := Some 2020;
     TOYBarometerEngine.last_year := Some 2022;
     TOYBarometerEngine.toy_start := None;
     TOYBarometerEngine.toy_end := None;
     TOYBarometerEngine.threshold := None;
     TOYBarometerEngine.forward_days := None |}.

(** ** Properties *)

(** C1: the fault-isolation wrapper never completes abruptly.  When the
    algorithm throws, the wrapper returns the failure object with the error
    and the fallback texts and [errorCount] grows by one while
    [successCount] is unchanged; when the algorithm returns, the wrapper
    returns the success object carrying the data and [successCount] grows
    by one while [errorCount] is unchanged.  Neither counter decreases. *)
Theorem safeExecute_isolates_faults :
  forall (W Args A : Type) (analysisFunction : Args -> Eff W A) (args : Args)
         (this : BaseEventEngine.Engine) (w : W),
  exists out this' w',
    BaseEventEngine.safeExecute analysisFunction args (this, w)
      = (Return out, (this', w')) /\
    match analysisFunction args w with
    | (Return result, w1) =>
        out = BaseEventEngine.Success result /\ w' = w1 /\
        BaseEventEngine.successCount this' = (BaseEventEngine.successCount this + 1)%N /\
        BaseEventEngine.errorCount this' = BaseEventEngine.errorCount this
    | (Throw error, w1) =>
        out = BaseEventEngine.Failure
                (BaseEventEngine.name this +:+ " analysis unavailable: " +:+ message error)
                (BaseEventEngine.getFallbackMessage this) /\ w' = w1 /\
        BaseEventEngine.errorCount this' = (BaseEventEngine.errorCount this + 1)%N /\
        BaseEventEngine.successCount this' = BaseEventEngine.successCount this
    end /\
    (BaseEventEngine.successCount this <= BaseEventEngine.successCount this')%N /\
    (BaseEventEngine.errorCount this <= BaseEventEngine.errorCount this')%N.
Proof.
  intros W Args A f args this w.
  unfold BaseEventEngine.safeExecute, etry, ebind, BaseEventEngine.on_world,
    BaseEventEngine.on_engine, emodify, eget, eret.
  destruct (f args w) as [[result | error] w1]; simpl.
  - eexists _, _, _; split; [reflexivity |].
    simpl. repeat split; lia.
  - eexists _, _, _; split; [reflexivity |].
    simpl. repeat split; lia.
Qed.

(** *** Loops *)

Lemma for_each_invariant {A S} (I : S -> Prop) (body : A -> S -> Completion S) :
  (forall x s s', I s -> body x s = Return s' -> I s') ->
  forall l s s', I s -> for_each l body s = Return s' -> I s'.
Proof.
  intros Hbody l. induction l as [| x l IH]; intros s s' Hs Hrun; simpl in Hrun.
  - injection Hrun as <-. exact Hs.
  - destruct (body x s) as [s1 | e] eqn:Hx; simpl in Hrun; [| discriminate].
    eapply IH; [| exact Hrun]. eapply Hbody; eauto.
Qed.

(** *** MomentumEngine: the 30-day gap between matches *)

Section MomentumGap.
Import MomentumEngine.

Lemma scan_inv_init : scan_inv (mkScan [] None).
Proof.
  split.
  - intros m Hm. inversion Hm.
  - intros i j mi mj _ Hi. simpl in Hi. rewrite lookup_nil in Hi. discriminate.
Qed.

Lemma scan_inv_record st (m : Match) :
  scan_inv st -> tooClose (lastMatchDate st) (m_date m) = false ->
  scan_inv (mkScan (s_matches st ++ [m]) (Some (m_date m))).
Proof.
  intros [Hle Hsp] Hfar. unfold tooClose in Hfar.
  assert (Hold : forall m0, m0 ∈ s_matches st -> m_date m0 + gap <= m_date m).
  { intros m0 Hm0. destruct (Hle m0 Hm0) as (l & Hl & Hm0l).
    rewrite Hl in Hfar. apply bool_decide_eq_false in Hfar.
    unfold gap. lia. }
  assert (Hgap : 0 <= gap) by (unfold gap, minGapDays, JsDate.msPerDay; lia).
  split; simpl.
  - intros m0 Hm0. exists (m_date m). split; [reflexivity |].
    rewrite elem_of_app, list_elem_of_singleton in Hm0.
    destruct Hm0 as [Hm0 | ->]; [specialize (Hold m0 Hm0) |]; lia.
  - intros i j mi mj Hij Hi Hj.
    apply lookup_snoc_Some in Hj as [[Hjl Hj] | [-> <-]].
    + rewrite lookup_app_l in Hi by lia. exact (Hsp i j mi mj Hij Hi Hj).
    + rewrite lookup_app_l in Hi by lia.
      apply Hold. eapply list_elem_of_lookup_2; eauto.
Qed.

Lemma candidate_preserves h a ps i st st' :
  scan_inv st -> candidate h a ps i st = Return st' -> scan_inv st'.
Proof.
  intros Hinv. unfold candidate.
  destruct (deref h a (i + days ps) "date") as [stop | e]; simpl; [| discriminate].
  destruct (tooClose (lastMatchDate st) (date stop)) eqn:Hclose.
  { intros [= <-]. exact Hinv. }
  destruct (deref h a i "close") as [start | e]; simpl; [| discriminate].
  repeat case_bool_decide.
  all: try (intros [= <-]; exact Hinv).
  all: match goal with
       | |- context [for_each ?l ?b ?w0] => destruct (for_each l b w0) as [w1 | e1]; simpl
       end; try discriminate.
  all: match goal with |- context [if ?c then _ else _] => destruct c end.
  all: intros [= <-]; try exact Hinv.
  all: match goal with
       | |- scan_inv (mkScan (_ ++ [?m]) _) => apply (scan_inv_record st m Hinv Hclose)
       end.
Qed.

(** A candidate whose end date is less than 30 days after the last match
    is passed over: the scan state is left as it was. *)
Lemma candidate_skips_within_gap h a ps i st stop l :
  deref h a (i + days ps) "date" = Return stop ->
  lastMatchDate st = Some l ->
  date stop - l < 30 * JsDate.msPerDay ->
  candidate h a ps i st = Return st.
Proof.
  intros Hstop Hl Hnear. unfold candidate. rewrite Hstop. simpl.
  unfold tooClose. rewrite Hl, bool_decide_eq_true_2; [reflexivity |].
  unfold minGapDays. exact Hnear.
Qed.

Lemma scan_spaced h a ps st : scan h a ps = Return st -> spaced (s_matches st).
Proof.
  intros Hrun. unfold scan in Hrun.
  apply (for_each_invariant scan_inv (candidate h a ps)) in Hrun.
  - apply Hrun.
  - intros x s s'. apply candidate_preserves.
  - apply scan_inv_init.
Qed.

Lemma analyzeMomentum_spaced data ps h r h' :
  _analyzeMomentum data ps h = (Return r, h') -> spaced (matches r).
Proof.
  unfold _analyzeMomentum, ebind, eget, elift, eret.
  destruct (_calculateSMA data (sma_period ps) h) as [[dataWithSMA | e] h1]; simpl;
    [| discriminate].
  destruct (scan h1 dataWithSMA ps) as [st | e] eqn:Hscan; [| discriminate].
  intros [= <- _]. simpl. eapply scan_spaced; eauto.
Qed.

End MomentumGap.

(** C6: in the match list the momentum analysis returns, the end dates of
    any two distinct matches are at least 30 days apart; and in the scan a
    candidate window whose end date is less than 30 days after the end date
    of the last recorded match records nothing. *)
Theorem momentum_matches_30_days_apart :
  forall (h : Heap) (data : list ref) (ps : MomentumEngine.Params)
         (r : MomentumEngine.Result) (h' : Heap),
    MomentumEngine._analyzeMomentum data ps h = (Return r, h') ->
    (forall (i j : nat) (mi mj : MomentumEngine.Match),
        i <> j ->
        MomentumEngine.matches r !! i = Some mi ->
        MomentumEngine.matches r !! j = Some mj ->
        30 * JsDate.msPerDay
          <= Z.abs (MomentumEngine.m_date mi - MomentumEngine.m_date mj)) /\
    (forall (i : Z) (st : MomentumEngine.Scan) (stop : PricePoint) (l : Z),
        deref h' data (i + MomentumEngine.days ps) "date" = Return stop ->
        MomentumEngine.lastMatchDate st = Some l ->
        date stop - l < 30 * JsDate.msPerDay ->
        MomentumEngine.candidate h' data ps i st = Return st).
Proof.
  intros h data ps r h' Hrun. split.
  - intros i j mi mj Hij Hi Hj.
    pose proof (analyzeMomentum_spaced _ _ _ _ _ Hrun) as Hsp.
    change (30 * JsDate.msPerDay) with gap.
    destruct (decide (i < j)%nat) as [Hlt | Hge].
    + specialize (Hsp i j mi mj Hlt Hi Hj). lia.
    + assert (Hlt : (j < i)%nat) by lia.
      specialize (Hsp j i mj mi Hlt Hj Hi). lia.
  - intros i st stop l. apply candidate_skips_within_gap.
Qed.

Lemma momentum_matches_30_days_apart_witness :
  exists r mi mj,
    MomentumEngine._analyzeMomentum gap_data gap_params gap_heap = (Return r, gap_run.2) /\
    length (MomentumEngine.matches r) = 2%nat /\
    gap_match 0 = Some mi /\ gap_match 1 = Some mj /\
    30 * JsDate.msPerDay <= Z.abs (MomentumEngine.m_date mi - MomentumEngine.m_date mj).
Proof.
  destruct gap_run as [[r | e] h'] eqn:Hrun; [| discriminate Hrun].
  destruct (MomentumEngine.matches r !! 0%nat) as [mi |] eqn:Hi;
    [| vm_compute in Hrun; injection Hrun as <- _; discriminate Hi].
  destruct (MomentumEngine.matches r !! 1%nat) as [mj |] eqn:Hj;
    [| vm_compute in Hrun; injection Hrun as <- _; discriminate Hj].
  assert (Heq : MomentumEngine._analyzeMomentum gap_data gap_params gap_heap = (Return r, h')).
  { rewrite <- Hrun. vm_compute. reflexivity. }
  exists r, mi, mj. split; [exact Heq |].
  split; [vm_compute in Hrun; injection Hrun as <- _; reflexivity |].
  unfold gap_match. rewrite Hrun. simpl.
  split; [exact Hi |]. split; [exact Hj |].
  exact (proj1 (momentum_matches_30_days_apart gap_heap gap_data gap_params r h' Heq)
           0%nat 1%nat mi mj ltac:(lia) Hi Hj).
Defined.

(** *** Sorting by a rational key, largest first *)

Section SortFacts.
Context {A : Type} (key : A -> Q).

Local Abbreviation key_ge := (key_ge key).
Local Abbreviation after_or_level := (after_or_level key).
Local Abbreviation has_key := (has_key key).

Lemma key_ge_iff x y : key_ge x y = true <-> (key y <= key x)%Q.
Proof.
  unfold key_ge, Qleb. rewrite Qle_bool_iff. split; intros; lra.
Qed.

Lemma key_ge_false x y : key_ge x y = false -> (key x < key y)%Q.
Proof.
  intros Hf. destruct (Qlt_le_dec (key x) (key y)) as [Hlt | Hle]; [exact Hlt |].
  apply key_ge_iff in Hle. congruence.
Qed.

Lemma sort_insert_perm x l : sort_insert key_ge x l ≡ₚ x :: l.
Proof.
  induction l as [| y l IH]; simpl; [reflexivity |].
  destruct (key_ge x y); [reflexivity |].
  rewrite IH. apply Permutation_swap.
Qed.

Lemma Array_sort_perm l : Array_sort key_ge l ≡ₚ l.
Proof.
  induction l as [| x l IH]; simpl; [reflexivity |].
  rewrite sort_insert_perm. now rewrite IH.
Qed.

Lemma sort_insert_sorted x l :
  StronglySorted after_or_level l -> StronglySorted after_or_level (sort_insert key_ge x l).
Proof.
  induction 1 as [| y l Hl IH Hy]; simpl.
  - repeat constructor.
  - destruct (key_ge x y) eqn:Hxy.
    + apply key_ge_iff in Hxy. constructor; [constructor; assumption |].
      constructor; [exact Hxy |].
      eapply Forall_impl; [exact Hy |]. unfold after_or_level. intros z Hz. lra.
    + apply key_ge_false in Hxy. constructor; [exact IH |].
      rewrite sort_insert_perm. constructor; [| exact Hy].
      unfold after_or_level. lra.
Qed.

Lemma Array_sort_sorted l : StronglySorted after_or_level (Array_sort key_ge l).
Proof.
  induction l as [| x l IH]; simpl; [constructor |].
  apply sort_insert_sorted, IH.
Qed.

Lemma sort_insert_filter k x l :
  filter (has_key k) (sort_insert key_ge x l) = filter (has_key k) (x :: l).
Proof.
  induction l as [| y l IH]; simpl; [reflexivity |].
  destruct (key_ge x y) eqn:Hxy; [reflexivity |].
  rewrite filter_cons, IH, !filter_cons.
  destruct (decide (has_key k y)) as [Hy | Hy];
    destruct (decide (has_key k x)) as [Hx | Hx]; try reflexivity.
  exfalso. apply key_ge_false in Hxy.
  unfold has_key in Hx, Hy. apply Qeq_bool_eq in Hx, Hy. lra.
Qed.

Lemma Array_sort_stable k l :
  filter (has_key k) (Array_sort key_ge l) = filter (has_key k) l.
Proof.
  induction l as [| x l IH]; simpl; [reflexivity |].
  rewrite sort_insert_filter, !filter_cons, IH. reflexivity.
Qed.

End SortFacts.

(** *** Sorting with any comparison *)

Lemma sort_insert_perm_any {A} (le : A -> A -> bool) x l : sort_insert le x l ≡ₚ x :: l.
Proof.
  induction l as [| y l IH]; simpl; [reflexivity |].
  destruct (le x y); [reflexivity |].
  rewrite IH. apply Permutation_swap.
Qed.

Lemma Array_sort_perm_any {A} (le : A -> A -> bool) l : Array_sort le l ≡ₚ l.
Proof.
  induction l as [| x l IH]; simpl; [reflexivity |].
  rewrite sort_insert_perm_any. now rewrite IH.
Qed.

Lemma sort_insert_ext {A} (le le' : A -> A -> bool) x l :
  (forall y, y ∈ l -> le x y = le' x y) -> sort_insert le x l = sort_insert le' x l.
Proof.
  induction l as [| y l IH]; intros Hle; simpl; [reflexivity |].
  rewrite (Hle y) by apply list_elem_of_here.
  destruct (le' x y); [reflexivity |].
  f_equal. apply IH. intros z Hz. apply Hle. now apply list_elem_of_further.
Qed.

(** Two comparisons that agree on the elements of a list sort it alike. *)
Lemma Array_sort_ext {A} (le le' : A -> A -> bool) l :
  (forall x y, x ∈ l -> y ∈ l -> le x y = le' x y) -> Array_sort le l = Array_sort le' l.
Proof.
  induction l as [| x l IH]; intros Hle; simpl; [reflexivity |].
  rewrite IH.
  - apply sort_insert_ext. intros y Hy. apply Hle; [apply list_elem_of_here |].
    apply list_elem_of_further. now rewrite <- (Array_sort_perm_any le' l).
  - intros y z Hy Hz. apply Hle; now apply list_elem_of_further.
Qed.

(** *** ExtendedForwardReturnsCalculator *)

Section ForwardReturns.
Import ExtendedForwardReturnsCalculator.
Variable ar : Arithmetic.

Lemma fold_left_add_map {B} (f : B -> Q) (xs : list B) (acc : Q) :
  fold_left (fun sum x => add ar sum (f x)) xs acc = fold_left (add ar) (f <$> xs) acc.
Proof.
  revert acc. induction xs as [| x xs IH]; intros acc; simpl; [reflexivity | apply IH].
Qed.

Lemma total_is_added_up xs : total ar xs = RatioSpec.added_up ar xs.
Proof.
  unfold total, RatioSpec.added_up. symmetry. apply fold_left_rev_right.
Qed.

Lemma average_is_mean xs : average ar xs = RatioSpec.mean ar xs.
Proof.
  unfold average, RatioSpec.mean. now rewrite total_is_added_up.
Qed.

Lemma stdDev_is_population_stdev xs :
  stdDev ar xs = RatioSpec.population_stdev ar xs.
Proof.
  unfold stdDev, RatioSpec.population_stdev, variance.
  rewrite (fold_left_add_map (fun ret => Math_pow ar (sub ar ret (average ar xs)) 2)).
  change (fold_left (add ar) ?l 0%Q) with (total ar l).
  rewrite total_is_added_up, average_is_mean. reflexivity.
Qed.

Lemma returnVolatilityRatio_is_ratio xs :
  returnVolatilityRatio ar xs = RatioSpec.ratio ar xs.
Proof.
  unfold returnVolatilityRatio, RatioSpec.ratio.
  rewrite stdDev_is_population_stdev, average_is_mean.
  unfold Qgtb, Qltb.
  destruct (Qlt_le_dec 0 (RatioSpec.population_stdev ar xs)) as [Hpos | Hnon].
  - destruct (Qle_bool _ 0) eqn:Hle; [| reflexivity].
    apply Qle_bool_iff in Hle. lra.
  - apply Qle_bool_iff in Hnon. now rewrite Hnon.
Qed.

(** The table of [performanceData] as a map. *)
Lemma alter_keys {V} (f : V -> V) (m : list (string * V)) k :
  (JsMap.alter f m k).*1 = m.*1.
Proof.
  induction m as [| [k' v'] m IH]; simpl; [reflexivity |].
  destruct (decide (k = k')); [reflexivity |].
  rewrite !fmap_cons. f_equal. exact IH.
Qed.

Lemma get_alter {V} (f : V -> V) (m : list (string * V)) k k' :
  JsMap.get (JsMap.alter f m k) k' =
    if decide (k = k') then f <$> JsMap.get m k' else JsMap.get m k'.
Proof.
  induction m as [| [k0 v0] m IH]; simpl.
  - now destruct (decide (k = k')).
  - destruct (decide (k = k0)) as [-> | Hk]; simpl.
    + destruct (decide (k' = k0)) as [-> | Hk'].
      * now rewrite decide_True.
      * destruct (decide (k0 = k')); [congruence | reflexivity].
    + destruct (decide (k' = k0)) as [-> | Hk'].
      * now rewrite decide_False.
      * exact IH.
Qed.

Lemma get_None {V} (m : list (string * V)) k : k ∉ m.*1 -> JsMap.get m k = None.
Proof.
  induction m as [| [k0 v0] m IH]; simpl; [reflexivity |].
  rewrite not_elem_of_cons. intros [Hne Hnin].
  destruct (decide (k = k0)); [congruence | now apply IH].
Qed.

Lemma get_elem_of {V} (m : list (string * V)) k v :
  NoDup m.*1 -> (k, v) ∈ m -> JsMap.get m k = Some v.
Proof.
  induction m as [| [k0 v0] m IH]; simpl; intros Hnd Hin.
  - inversion Hin.
  - apply NoDup_cons in Hnd as [Hk0 Hnd].
    apply elem_of_cons in Hin as [[= -> ->] | Hin].
    + now rewrite decide_True.
    + destruct (decide (k = k0)) as [-> | Hne]; [| now apply IH].
      exfalso. apply Hk0. apply list_elem_of_fmap. now exists (k0, v).
Qed.

Lemma get_initial periods label :
  JsMap.get (initialPerformanceData periods) label
  = (fun _ => perf_of []) <$> JsMap.get periods label.
Proof.
  unfold initialPerformanceData.
  induction periods as [| [l d] periods IH]; simpl; [reflexivity |].
  destruct (decide (label = l)); [reflexivity | exact IH].
Qed.

Lemma recordReturn_perf_of x rs : recordReturn x (perf_of rs) = perf_of (rs ++ [x]).
Proof.
  unfold recordReturn, perf_of. simpl. f_equal.
  - rewrite filter_app, length_app, filter_cons, filter_nil.
    destruct (Qgtb x 0); [rewrite decide_True by reflexivity; simpl; lia |].
    rewrite decide_False by discriminate. simpl. lia.
  - rewrite length_app. simpl. lia.
Qed.

Lemma with_return_perf_of o rs :
  with_return o (perf_of rs) = perf_of (rs ++ from_option (fun x => [x]) [] o).
Proof.
  destruct o as [x |]; simpl; [apply recordReturn_perf_of | now rewrite app_nil_r].
Qed.

(** The per-day lookup table finds the last point of a day. *)
Lemma buildDataByDate_from (data : list PricePoint) :
  forall (m : gmap Z (PricePoint * nat)) (k : nat) (day : Z),
    foldl (fun m ie => <[ JsDate.isoDay (date ie.2) := (ie.2, ie.1) ]> m) m
          (imap (fun index item => ((k + index)%nat, item)) data) !! day
    = match day_index data day with
      | Some i => (fun p => (p, (k + i)%nat)) <$> data !! i
      | None => m !! day
      end.
Proof.
  induction data as [| p data IH]; intros m k day; [reflexivity |].
  cbn [imap foldl day_index].
  rewrite (imap_ext _ (fun index item => ((S k + index)%nat, item)))
    by (intros i x _; simpl; f_equal; lia).
  rewrite IH. cbn [fst snd].
  destruct (day_index data day) as [i |].
  - cbn [lookup]. simpl. destruct (data !! i); simpl; [f_equal; f_equal; lia | reflexivity].
  - case_bool_decide as Hday.
    + rewrite Hday, lookup_insert_eq. reflexivity.
    + rewrite lookup_insert_ne by exact Hday. reflexivity.
Qed.

Lemma buildDataByDate_lookup data day :
  buildDataByDate data !! day
  = (i ← day_index data day; (fun p => (p, i)) <$> data !! i).
Proof.
  unfold buildDataByDate.
  rewrite (buildDataByDate_from data ∅ 0 day).
  destruct (day_index data day) as [i |]; [reflexivity | apply lookup_empty].
Qed.

(** The inner loop gives each timeframe the return of the match, if the
    offset stays within the series. *)
Lemma forwardCells_get data current :
  forall (todo : list (string * Z)) (cells0 cells' : list (string * option Q))
         (pd0 pd' : list (string * Perf)) (label : string),
    NoDup todo.*1 ->
    for_each todo
      (fun '(label, days) '(cells, performanceData) =>
         let futureIndex := Z.of_nat current.2 + days in
         if bool_decide (futureIndex < Z.of_nat (length data)) then
           cbind (futurePoint data futureIndex) (fun future =>
           let returnPct :=
             mul ar (div ar (sub ar (close future) (close current.1)) (close current.1)) 100 in
           Return (JsMap.set cells label (Some returnPct),
                   JsMap.alter (recordReturn returnPct) performanceData label))
         else Return (JsMap.set cells label None, performanceData))
      (cells0, pd0) = Return (cells', pd') ->
    JsMap.get pd' label
    = match JsMap.get todo label with
      | Some days =>
          with_return (return_from ar data days current.2 current.1) <$> JsMap.get pd0 label
      | None => JsMap.get pd0 label
      end.
Proof.
  induction todo as [| [l0 d0] todo IH]; intros cells0 cells' pd0 pd' label Hnd Hrun.
  - simpl in Hrun. injection Hrun as <- <-. reflexivity.
  - rewrite fmap_cons in Hnd. apply NoDup_cons in Hnd as [Hl0 Hnd].
    cbn [for_each] in Hrun. cbn [JsMap.get].
    unfold return_from.
    destruct (bool_decide (Z.of_nat current.2 + d0 < Z.of_nat (length data))) eqn:Hin.
    + unfold futurePoint in Hrun at 1.
      destruct (array_get data (Z.of_nat current.2 + d0)) as [future |] eqn:Hfut;
        [| discriminate Hrun].
      cbn [cbind] in Hrun.
      rewrite (IH _ _ _ _ label Hnd Hrun).
      destruct (decide (label = l0)) as [-> | Hne].
      * rewrite (get_None todo l0 Hl0), get_alter, decide_True by reflexivity.
        rewrite Hin, Hfut. reflexivity.
      * rewrite get_alter, decide_False by congruence. reflexivity.
    + cbn [cbind] in Hrun.
      rewrite (IH _ _ _ _ label Hnd Hrun).
      destruct (decide (label = l0)) as [-> | Hne]; [| reflexivity].
      rewrite (get_None todo l0 Hl0), Hin. simpl.
      now destruct (JsMap.get pd0 l0).
Qed.

(** The loop over the matches gives every timeframe its forward returns,
    in the order of the matches. *)
Lemma processMatches_get data periods matches :
  NoDup periods.*1 ->
  forall results pd log results' pd' log' label days rs0,
    processMatches ar data (buildDataByDate data) periods matches results pd log
      = (Return (results', pd'), log') ->
    JsMap.get periods label = Some days ->
    JsMap.get pd label = Some (perf_of rs0) ->
    JsMap.get pd' label = Some (perf_of (rs0 ++ forward_returns ar data days matches)).
Proof.
  intros Hnd.
  induction matches as [| m rest IH];
    intros results pd log results' pd' log' label days rs0 Hrun Hdays Hpd.
  - simpl in Hrun. unfold eret in Hrun. injection Hrun as <- <- <-.
    unfold forward_returns. simpl. now rewrite app_nil_r.
  - cbn [processMatches] in Hrun.
    unfold forward_returns. cbn [omap list_omap]. fold (forward_returns ar data days rest).
    unfold forward_return.
    rewrite buildDataByDate_lookup in Hrun.
    destruct (day_index data (JsDate.isoDay (m_date m))) as [i |]; cbn [mbind option_bind] in *.
    + destruct (data !! i) as [cur |]; cbn [fmap option_fmap option_map mbind option_bind] in *.
      * unfold ebind, elift in Hrun.
        destruct (forwardCells ar data (cur, i) periods pd) as [[cells pd1] | e] eqn:Hcells;
          [| discriminate Hrun].
        cbn [fst snd] in Hrun.
        pose proof (forwardCells_get data (cur, i) periods [] cells pd pd1 label Hnd Hcells)
          as Hget.
        rewrite Hdays, Hpd in Hget. cbn [fmap option_fmap option_map fst snd] in Hget.
        rewrite with_return_perf_of in Hget.
        rewrite (IH _ _ _ _ _ _ label days _ Hrun Hdays Hget).
        rewrite <- app_assoc. do 3 f_equal.
        now destruct (return_from ar data days i cur).
      * unfold ebind, emodify in Hrun. exact (IH _ _ _ _ _ _ label days rs0 Hrun Hdays Hpd).
    + unfold ebind, emodify in Hrun. exact (IH _ _ _ _ _ _ label days rs0 Hrun Hdays Hpd).
Qed.

Lemma forwardCells_keys data current periods pd cells pd' :
  forwardCells ar data current periods pd = Return (cells, pd') -> pd'.*1 = pd.*1.
Proof.
  unfold forwardCells. intros Hrun.
  apply (for_each_invariant
           (fun st : list (string * option Q) * list (string * Perf) => st.2.*1 = pd.*1))
    in Hrun; [exact Hrun | | reflexivity].
  intros [label days] [c0 pd0] [c1 pd1] Hinv. simpl in Hinv |- *.
  case_bool_decide.
  - destruct (futurePoint data _) as [future | e]; simpl; [| discriminate].
    intros [= <- <-]. now rewrite alter_keys.
  - intros [= <- <-]. exact Hinv.
Qed.

Lemma processMatches_keys data dataByDate periods matches :
  forall results pd log results' pd' log',
    processMatches ar data dataByDate periods matches results pd log
      = (Return (results', pd'), log') ->
    pd'.*1 = pd.*1.
Proof.
  induction matches as [| m rest IH]; intros results pd log results' pd' log'; simpl.
  - unfold eret. intros [= <- <- <-]. reflexivity.
  - destruct (dataByDate !! JsDate.isoDay (m_date m)) as [currentData |].
    + unfold ebind, elift.
      destruct (forwardCells ar data currentData periods pd) as [[cells pd1] | e] eqn:Hcells;
        [| discriminate].
      simpl. intros Hrun. apply IH in Hrun. rewrite Hrun.
      eapply forwardCells_keys; eauto.
    + unfold ebind, emodify. apply IH.
Qed.

(** With offsets that are not negative no future point is missing, and
    the loops return. *)
Lemma forwardCells_returns data current periods pd :
  Forall (fun e : string * Z => 0 <= e.2) periods ->
  exists out, forwardCells ar data current periods pd = Return out.
Proof.
  unfold forwardCells. generalize ([] : list (string * option Q)).
  revert pd. induction periods as [| [label days] periods IH]; intros pd cells Hdays.
  - eexists. reflexivity.
  - apply Forall_cons in Hdays as [Hd Hdays]. cbn [for_each]. simpl in Hd.
    case_bool_decide as Hin.
    + unfold futurePoint, array_get. rewrite decide_True by lia.
      destruct (lookup_lt_is_Some_2 data (Z.to_nat (Z.of_nat current.2 + days)))
        as [future Hfuture]; [lia |].
      rewrite Hfuture. cbn [cbind]. apply IH, Hdays.
    + cbn [cbind]. apply IH, Hdays.
Qed.

Lemma processMatches_returns data dataByDate periods matches :
  Forall (fun e : string * Z => 0 <= e.2) periods ->
  forall results pd log,
    exists out log',
      processMatches ar data dataByDate periods matches results pd log
        = (Return out, log').
Proof.
  intros Hdays. induction matches as [| m rest IH]; intros results pd log;
    cbn [processMatches].
  - eexists _, _. reflexivity.
  - destruct (dataByDate !! JsDate.isoDay (m_date m)) as [currentData |].
    + unfold ebind, elift.
      destruct (forwardCells_returns data currentData periods pd Hdays) as [out ->].
      apply IH.
    + unfold ebind, emodify. apply IH.
Qed.

(** The row of a timeframe, from its returns. *)
Lemma tableRow_perf_of label rs :
  timeframe (tableRow ar (label, perf_of rs)) = label /\
  samples (tableRow ar (label, perf_of rs)) = length rs /\
  returnVolRatio (tableRow ar (label, perf_of rs))
  = if bool_decide (rs = []) then None else Some (RatioSpec.ratio ar rs).
Proof.
  unfold tableRow, perf_of. cbn [returns totalCount].
  destruct rs as [| x rs]; cbn [length].
  - rewrite bool_decide_eq_false_2 by lia. repeat split.
  - rewrite bool_decide_eq_true_2 by lia. cbn [timeframe samples returnVolRatio].
    rewrite returnVolatilityRatio_is_ratio. repeat split.
Qed.

Lemma tableRow_timeframe (e : string * Perf) : timeframe (tableRow ar e) = e.1.
Proof.
  destruct e as [label p]. unfold tableRow. now case_bool_decide.
Qed.

(** On a table whose ratios subtract with the right sign, the comparison
    of the sort is the order of the ratios. *)
Lemma byRatio_is_order table :
  sign_exact_on ar table ->
  forall a b, a ∈ table -> b ∈ table -> byRatio ar a b = key_ge ratio_or_zero a b.
Proof.
  intros Hsign a b Ha Hb. unfold sign_exact_on in Hsign.
  rewrite Forall_forall in Hsign. specialize (Hsign a Ha).
  rewrite Forall_forall in Hsign. specialize (Hsign b Hb).
  unfold byRatio, key_ge, Qleb.
  change (sortKey b) with (ratio_or_zero b). change (sortKey a) with (ratio_or_zero a).
  rewrite Hsign.
  destruct (Qle_bool (ratio_or_zero b) (ratio_or_zero a)) eqn:Hle; symmetry.
  - apply Qle_bool_iff in Hle. apply Qle_bool_iff. lra.
  - destruct (Qle_bool (ratio_or_zero b - ratio_or_zero a) 0) eqn:Hle'; [| reflexivity].
    apply Qle_bool_iff in Hle'.
    assert (Hle2 : (ratio_or_zero b <= ratio_or_zero a)%Q) by lra.
    apply Qle_bool_iff in Hle2. congruence.
Qed.

End ForwardReturns.



(** The run of the example in binary64: the three one-day returns are the
    same double, their average is one unit in the last place above it,
    the standard deviation is 2^-50, and the one-day timeframe comes
    first with a ratio of about 6.25e15. *)
Example calculate_ranks_equal_returns_first :
  forward_returns Binary64.arithmetic fr_data 1 fr_matches
    = [3127499741229511 # 562949953421312; 3127499741229511 # 562949953421312;
       3127499741229511 # 562949953421312] /\
  forward_returns Binary64.arithmetic fr_data 2 fr_matches = [0; 0; 10]%Q /\
  exists r,
    ExtendedForwardReturnsCalculator.calculate Binary64.arithmetic fr_data (Some fr_matches)
      (Some fr_periods) [] = (Return r, []) /\
    (fun row => (ExtendedForwardReturnsCalculator.timeframe row,
                 ExtendedForwardReturnsCalculator.avgReturnRaw row,
                 ExtendedForwardReturnsCalculator.volatility row,
                 ExtendedForwardReturnsCalculator.returnVolRatio row))
      <$> ExtendedForwardReturnsCalculator.rows
            (ExtendedForwardReturnsCalculator.performanceTable r)
    = [ ("1D", Some (6254999482459021 # 1125899906842624), Some (1 # 1125899906842624),
         Some (6254999482459021 # 1));
        ("2D", Some (7505999378950827 # 2251799813685248),
         Some (5307543060438143 # 1125899906842624),
         Some (3184525836262887 # 4503599627370496)) ]%Q.
Proof.
  split; [vm_compute; reflexivity |]. split; [vm_compute; reflexivity |].
  eexists. split; vm_compute; reflexivity.
Qed.

(** C8: with no match list, or an empty one, [calculate] returns the empty
    result (no result rows, a summary with 0 total matches and a message,
    a performance table without rows) for every series and every choice of
    timeframes; it does not throw and writes nothing. *)
Theorem calculate_empty_matches :
  forall (ar : Arithmetic) (data : list PricePoint)
         (customPeriods : option (list (string * Z))) (log : list string),
    let empty := ExtendedForwardReturnsCalculator.emptyResult in
    ExtendedForwardReturnsCalculator.calculate ar data None customPeriods log
      = (Return empty, log) /\
    ExtendedForwardReturnsCalculator.calculate ar data (Some []) customPeriods log
      = (Return empty, log) /\
    ExtendedForwardReturnsCalculator.results empty = [] /\
    ExtendedForwardReturnsCalculator.totalMatches
      (ExtendedForwardReturnsCalculator.summary empty) = 0%nat /\
    ExtendedForwardReturnsCalculator.s_message
      (ExtendedForwardReturnsCalculator.summary empty)
      = Some "No historical instances found for this event pattern" /\
    ExtendedForwardReturnsCalculator.performanceTable empty
      = ExtendedForwardReturnsCalculator.getEmptyPerformanceTable /\
    ExtendedForwardReturnsCalculator.rows
      ExtendedForwardReturnsCalculator.getEmptyPerformanceTable = [].
Proof.
  intros ar data customPeriods log. cbv zeta.
  repeat split.
Qed.

(** *** ContextualFilterService *)

Section ContextFilters.
Import ContextualFilterService.
Variable Date_parse : string -> option Z.

Lemma applyFilter_sublist additionalFilters l f :
  applyFilter Date_parse additionalFilters l f `sublist_of` l.
Proof.
  unfold applyFilter, filterByDayOfWeek.
  repeat case_bool_decide; try apply sublist_filter; try reflexivity.
  - destruct (day_filter additionalFilters); [apply sublist_filter | reflexivity].
  - destruct (month_filter additionalFilters); [apply sublist_filter | reflexivity].
Qed.

Lemma applyContextFilters_sublist additionalFilters filters :
  forall dates, applyContextFilters Date_parse dates filters additionalFilters
                  `sublist_of` dates.
Proof.
  unfold applyContextFilters.
  induction filters as [| f filters IH]; intros dates; simpl; [reflexivity |].
  etransitivity; [apply IH | apply applyFilter_sublist].
Qed.

End ContextFilters.

(** C10: [applyContextFilters] returns a subsequence of its input: the
    dates of the output occur in the input in the same order and none is
    added.  A filter name that is not one of the five known ones leaves the
    list as it is at its step, and so do DAY_OF_WEEK without [day_filter]
    and MONTH_OF_YEAR without [month_filter]. *)
Theorem applyContextFilters_subsequence :
  forall (Date_parse : string -> option Z) (dates filters : list string)
         (additionalFilters : ContextualFilterService.AdditionalFilters),
    ContextualFilterService.applyContextFilters Date_parse dates filters additionalFilters
      `sublist_of` dates /\
    (forall (l : list string) (name : string),
        name ∉ ContextualFilterService.knownFilters ->
        ContextualFilterService.applyFilter Date_parse additionalFilters l name = l) /\
    (forall l : list string,
        ContextualFilterService.day_filter additionalFilters = None ->
        ContextualFilterService.applyFilter Date_parse additionalFilters l "DAY_OF_WEEK" = l) /\
    (forall l : list string,
        ContextualFilterService.month_filter additionalFilters = None ->
        ContextualFilterService.applyFilter Date_parse additionalFilters l "MONTH_OF_YEAR" = l).
Proof.
  intros Date_parse dates filters additionalFilters.
  split; [apply applyContextFilters_sublist |].
  split; [| split].
  - intros l name Hname. unfold ContextualFilterService.applyFilter.
    unfold ContextualFilterService.knownFilters in Hname.
    repeat case_bool_decide; subst; try reflexivity; exfalso; apply Hname; set_solver.
  - intros l Hnone. unfold ContextualFilterService.applyFilter. simpl. now rewrite Hnone.
  - intros l Hnone. unfold ContextualFilterService.applyFilter. simpl. now rewrite Hnone.
Qed.

Lemma applyContextFilters_subsequence_witness :
  ContextualFilterService.applyContextFilters parseISODay cf_dates cf_filters cf_additional
    `sublist_of` cf_dates /\
  ("WEEKEND" ∉ ContextualFilterService.knownFilters) /\
  ContextualFilterService.applyFilter parseISODay cf_additional cf_dates "WEEKEND" = cf_dates /\
  ContextualFilterService.applyFilter parseISODay cf_additional cf_dates "DAY_OF_WEEK" = cf_dates /\
  ContextualFilterService.applyFilter parseISODay cf_additional cf_dates "MONTH_OF_YEAR"
    = cf_dates.
Proof.
  assert (Hname : "WEEKEND" ∉ ContextualFilterService.knownFilters).
  { apply (bool_decide_unpack _). vm_compute. exact I. }
  destruct (applyContextFilters_subsequence parseISODay cf_dates cf_filters cf_additional)
    as (Hsub & Hunknown & Hday & Hmonth).
  split; [exact Hsub |].
  split; [exact Hname |].
  split; [exact (Hunknown cf_dates "WEEKEND" Hname) |].
  split; [exact (Hday cf_dates eq_refl) | exact (Hmonth cf_dates eq_refl)].
Defined.

(** The Fed-meeting window around 31 January 2024 keeps 30 January and
    drops 5 February. *)
Example fed_meeting_filter_example :
  ContextualFilterService.applyContextFilters parseISODay cf_dates cf_filters cf_additional
    = ["2024-01-30"].
Proof. vm_compute. reflexivity. Qed.

(** *** VolatilityEngine: the gap_down condition *)

(** With [price_condition = 'gap_down'] the price condition holds when the
    close-to-close change is below the negated threshold, whatever the gap,
    and otherwise when the gap is at or below the negated threshold. *)
Lemma priceConditionMet_gap_down ps prev cur :
  VolatilityEngine.price_condition ps = "gap_down" ->
  VolatilityEngine.priceConditionMet ps prev cur =
    Qltb (VolatilityEngine.priceChange prev cur)
         (- Math_abs (VolatilityEngine.price_threshold ps))%Q
    || Qleb (VolatilityEngine.gapDown prev cur)
            (- Math_abs (VolatilityEngine.price_threshold ps))%Q.
Proof.
  intros Hcond. unfold VolatilityEngine.priceConditionMet. rewrite Hcond. simpl.
  unfold Qltb, Qgeb, Qleb.
  destruct (Qle_bool _ (VolatilityEngine.priceChange prev cur)); reflexivity.
Qed.

(** C5, evaluated: the second day opens 3% below the previous close with
    the volatility index at 30, so with [price_condition = 'gap_down'], a
    price threshold of 2 and a volatility threshold of 25 it is a day that
    has to match.  The algorithm reads [data], which nothing binds: it
    throws before the series are aligned, and [analyze] returns a failure
    without any match and books an error. *)
Theorem gap_down_day_is_lost_to_unbound_data :
  VolatilityEngine._alignDataSeries vol_prices vol_vix = [vol_prev; vol_cur] /\
  Qgeb (close (VolatilityEngine.b vol_cur)) (VolatilityEngine.vix_threshold vol_params) = true /\
  Qleb (VolatilityEngine.gapDown vol_prev vol_cur)
       (- Math_abs (VolatilityEngine.price_threshold vol_params))%Q = true /\
  VolatilityEngine._analyzeVolatility (Return vol_vix) None vol_params
    = Throw (mkError "data is not defined") /\
  exists this',
    VolatilityEngine.analyze (Return vol_vix) None vol_prices vol_params
      (BaseEventEngine.constructor "Volatility Events", tt)
    = (Return (BaseEventEngine.Failure
                 "Volatility Events analysis unavailable: data is not defined"
                 "Volatility Events engine is temporarily unavailable. Please try again later."),
       (this', tt)) /\
    BaseEventEngine.errorCount this' = 1%N /\
    BaseEventEngine.successCount this' = 0%N.
Proof.
  split; [vm_compute; reflexivity |].
  split; [vm_compute; reflexivity |].
  split; [vm_compute; reflexivity |].
  split; [reflexivity |].
  eexists. split; [vm_compute; reflexivity |].
  split; reflexivity.
Qed.

(** Through [analyze] the algorithm is given the series where it expects
    its parameters and finds no binding for [data]: the call is booked as
    an error, whatever the series and the parameters. *)
Lemma volatility_analyze_unbound_data fetchVIX data parameters this :
  exists error fallback this',
    VolatilityEngine.analyze fetchVIX None data parameters (this, tt)
      = (Return (BaseEventEngine.Failure error fallback), (this', tt)).
Proof.
  unfold VolatilityEngine.analyze, BaseEventEngine.safeExecute, etry, ebind, elift,
    BaseEventEngine.on_world, BaseEventEngine.on_engine, emodify, eget, eret.
  unfold VolatilityEngine._analyzeVolatility.
  destruct fetchVIX as [vixData | e]; simpl; eauto.
Qed.

(** *** The input series under the engines *)

(** The percent-move analysis leaves the object store as it was. *)
Lemma percent_move_keeps_store data ps this h :
  (PercentMoveEngine.analyze data ps (this, h)).2.2 = h.
Proof.
  unfold PercentMoveEngine.analyze, BaseEventEngine.safeExecute, etry, ebind, elift,
    BaseEventEngine.on_world, BaseEventEngine.on_engine, emodify, eget, eret.
  destruct (PercentMoveEngine._analyzePercentMove h data ps); reflexivity.
Qed.

(** C9, evaluated: the momentum analysis of a six-point series with
    [sma_period = 2] succeeds and leaves an [sma] property on every point
    of the input series from the second on. *)
Theorem momentum_analysis_adds_sma_to_input :
  (sma <$> gap_heap) = [None; None; None; None; None; None] /\
  exists out this' (h' : list PricePoint),
    MomentumEngine.analyze gap_data gap_params
      (BaseEventEngine.constructor "Momentum Patterns", gap_heap) = (Return out, (this', h')) /\
    BaseEventEngine.success out = true /\
    ((fun p : PricePoint => bool_decide (is_Some (sma p))) <$> h')
      = [false; true; true; true; true; true] /\
    h' <> gap_heap.
Proof.
  split; [reflexivity |].
  destruct (MomentumEngine.analyze gap_data gap_params
              (BaseEventEngine.constructor "Momentum Patterns", gap_heap))
    as [[out | e] [this' h']] eqn:Hrun; [| vm_compute in Hrun; discriminate Hrun].
  exists out, this', h'. split; [reflexivity |].
  vm_compute in Hrun. injection Hrun as <- <- <-.
  split; [reflexivity |]. split; [| discriminate].
  vm_compute. reflexivity.
Qed.

(** *** TOYBarometerEngine *)

(** The nominal date itself is returned when it is a trading day. *)
Lemma findNearestTradingDay_exact targetDate dataByDate direction :
  TOYBarometerEngine.has dataByDate (JsDate.isoDay targetDate) = true ->
  TOYBarometerEngine.findNearestTradingDay targetDate dataByDate direction
    = Some (JsDate.isoDay targetDate).
Proof.
  intros Hhas. unfold TOYBarometerEngine.findNearestTradingDay. now rewrite Hhas.
Qed.

(** C3, evaluated: from Saturday 30 December 2023 the search steps to
    31 December, 1 January and then to 2 February, because each step sets
    the day of the month on the date the step before left behind.  With
    sessions on 2 January and 2 February it returns 2 February, 34 days
    after the nominal date; without the session of 2 February it returns
    nothing although 2 January is a session 3 days after the nominal
    date. *)
Theorem findNearestTradingDay_skips_days_after_month_end :
  let table := TOYBarometerEngine.buildDataByDate turn_sessions in
  let table_short := TOYBarometerEngine.buildDataByDate turn_sessions_short in
  let nominal := JsDate.isoDay turn_target in
  JsDate.civil_from_days nominal = (2023, 12, 30) /\
  TOYBarometerEngine.has table nominal = false /\
  TOYBarometerEngine.has table (nominal + 1) = false /\
  TOYBarometerEngine.has table (nominal + 2) = false /\
  TOYBarometerEngine.has table (nominal + 3) = true /\
  TOYBarometerEngine.has table_short (nominal + 3) = true /\
  TOYBarometerEngine.findNearestTradingDay turn_target table "after" = Some (nominal + 34) /\
  TOYBarometerEngine.findNearestTradingDay turn_target table_short "after" = None.
Proof.
  cbv zeta. repeat split; vm_compute; reflexivity.
Qed.

(** C2, evaluated: [validateParameters] reports both the threshold of 50
    and the first year that is not before the last, and [analyze] runs all
    the same: the series is requested, the 2021 window is analysed and the
    call is booked as a success. *)
Theorem toy_analyze_runs_unvalidated_request :
  TOYBarometerEngine.validateParameters toy_request
    = ["Threshold should be between 0% and 20%"; "First year must be before last year"] /\
  exists r this',
    TOYBarometerEngine.analyze toy_fetch 2026 toy_request TOYBarometerEngine.constructor
      = (Return (BaseEventEngine.Success r), this') /\
    TOYBarometerEngine.requests this' = [("SPY", "10y")] /\
    (TOYBarometerEngine.year <$> TOYBarometerEngine.matches r) = [2021] /\
    TOYBarometerEngine.total_periods r = 1%nat /\
    TOYBarometerEngine.successCount this' = 1%N /\
    TOYBarometerEngine.errorCount this' = 0%N.
Proof.
  split; [vm_compute; reflexivity |].
  destruct (TOYBarometerEngine.analyze toy_fetch 2026 toy_request
              TOYBarometerEngine.constructor) as [[[r | error fallback] | e] this'] eqn:Hrun;
    [| vm_compute in Hrun; discriminate Hrun | vm_compute in Hrun; discriminate Hrun].
  exists r, this'. split; [reflexivity |].
  vm_compute in Hrun. injection Hrun as <- <-.
  repeat split; vm_compute; reflexivity.
Qed.

Section TOYYears.
Import TOYBarometerEngine.

Variables (toyStartMD toyEndMD : string) (dataByDate : gmap Z Entry)
          (data : list PricePoint) (threshold : Q) (forwardDays : list Z).

Let run (y : Z) : Completion TOYResult :=
  analyzeTOYPeriod y toyStartMD toyEndMD dataByDate data threshold forwardDays.

Local Abbreviation analysed :=
  (analysed toyStartMD toyEndMD dataByDate data threshold forwardDays).
Local Abbreviation skipped :=
  (skipped toyStartMD toyEndMD dataByDate data threshold forwardDays).

Lemma add_warnings_stderr lines this :
  stderr (add_warnings lines this) = stderr this ++ lines.
Proof.
  revert this. induction lines as [| line lines IH]; intros this; simpl.
  - now rewrite app_nil_r.
  - rewrite IH. simpl. now rewrite <- app_assoc.
Qed.

Lemma add_warnings_requests lines this :
  requests (add_warnings lines this) = requests this.
Proof.
  revert this. induction lines as [| line lines IH]; intros this; simpl;
    [reflexivity | now rewrite IH].
Qed.

Lemma add_warnings_counts lines this :
  successCount (add_warnings lines this) = successCount this /\
  errorCount (add_warnings lines this) = errorCount this.
Proof.
  revert this. induction lines as [| line lines IH]; intros this; simpl;
    [split; reflexivity |].
  destruct (IH (console_warn line this)) as [-> ->]. split; reflexivity.
Qed.

Lemma add_warnings_counts_success lines this :
  successCount (add_warnings lines this) = successCount this.
Proof. apply add_warnings_counts. Qed.

Lemma add_warnings_counts_error lines this :
  errorCount (add_warnings lines this) = errorCount this.
Proof. apply add_warnings_counts. Qed.

(** The loop analyses every year: the periods of the years that resolve
    are appended in order, and every year that throws leaves one
    warning. *)
Lemma analyzeYears_all_years years :
  forall toyPeriods this,
    analyzeYears years toyStartMD toyEndMD dataByDate data threshold forwardDays
      toyPeriods this
    = (Return (toyPeriods ++ omap analysed years),
       add_warnings (omap skipped years) this).
Proof.
  induction years as [| y years IH]; intros toyPeriods this; simpl.
  - unfold eret. now rewrite app_nil_r.
  - unfold ebind at 1. unfold etry, ebind, elift, emodify, eret.
    unfold analysed, skipped. fold (run y).
    destruct (run y) as [p | e]; simpl.
    + rewrite IH. now rewrite <- app_assoc.
    + rewrite IH. reflexivity.
Qed.

Lemma analyzeTOYPeriod_year y p : run y = Return p -> year (event p) = y.
Proof.
  unfold run, analyzeTOYPeriod.
  destruct (parseMD toyStartMD) as [[startMonth startDay] |]; [| discriminate].
  destruct (parseMD toyEndMD) as [[endMonth endDay] |]; [| discriminate].
  destruct (findNearestTradingDay _ _ _) as [startTradingDay |]; [| discriminate].
  destruct (findNearestTradingDay _ _ _) as [endTradingDay |]; [| discriminate].
  destruct (dataByDate !! startTradingDay) as [[startData ?] |]; [| discriminate].
  destruct (dataByDate !! endTradingDay) as [[endData endIndex] |]; [| discriminate].
  destruct (calculateForwardReturns _ _ _) as [forwardReturns | e]; simpl; [| discriminate].
  intros [= <-]. reflexivity.
Qed.

(** A boundary without a trading day within the search makes the year
    throw. *)
Lemma analyzeTOYPeriod_no_trading_day y startMonth startDay endMonth endDay :
  parseMD toyStartMD = Some (startMonth, startDay) ->
  parseMD toyEndMD = Some (endMonth, endDay) ->
  findNearestTradingDay (JsDate.ofYMD y (startMonth - 1) startDay) dataByDate "after" = None
  \/ findNearestTradingDay
       (JsDate.ofYMD (if bool_decide (endMonth < startMonth) then y + 1 else y)
                     (endMonth - 1) endDay) dataByDate "after" = None ->
  run y = Throw (noTradingDays y).
Proof.
  intros Hs He Hnone. unfold run, analyzeTOYPeriod. rewrite Hs, He.
  destruct Hnone as [-> | ->]; [reflexivity |].
  destruct (findNearestTradingDay _ _ _); reflexivity.
Qed.

End TOYYears.

(** C7: when the dates of the request are valid and the series arrives and
    is not empty, [analyze] returns a success.  Its periods are those of
    the years of [first_year .. last_year] whose window resolves, in order;
    every year whose analysis throws (no trading day for a boundary, no
    price data, or anything else) is absent from the result and leaves one
    warning, and the years after it are analysed all the same. *)
Theorem toy_year_failure_is_not_fatal :
  forall (fetch : string -> string -> Completion (list PricePoint)) (currentYear : Z)
         (parameters : TOYBarometerEngine.Parameters) (this : TOYBarometerEngine.Engine)
         (data : list PricePoint),
    let ticker := default "SPY" (TOYBarometerEngine.ticker parameters) in
    let first_year := default 2000 (TOYBarometerEngine.first_year parameters) in
    let last_year := default currentYear (TOYBarometerEngine.last_year parameters) in
    let toy_start := default "11-19" (TOYBarometerEngine.toy_start parameters) in
    let toy_end := default "01-19" (TOYBarometerEngine.toy_end parameters) in
    let threshold := default 3.0%Q (TOYBarometerEngine.threshold parameters) in
    let forward_days := default [5; 10; 15; 20; 40; 63; 126; 252]
                                (TOYBarometerEngine.forward_days parameters) in
    let years := range first_year (last_year + 1) in
    let run := fun y : Z =>
      TOYBarometerEngine.analyzeTOYPeriod y toy_start toy_end
        (TOYBarometerEngine.buildDataByDate data) data threshold forward_days in
    TOYBarometerEngine.validateTOYDates toy_start toy_end = [] ->
    fetch ticker "10y" = Return data ->
    data <> [] ->
    exists r this',
      TOYBarometerEngine.analyze fetch currentYear parameters this
        = (Return (BaseEventEngine.Success r), this') /\
      TOYBarometerEngine.toyPeriods r
        = omap (fun y => match run y with Return p => Some p | Throw _ => None end) years /\
      TOYBarometerEngine.matches r
        = (TOYBarometerEngine.event <$> TOYBarometerEngine.toyPeriods r) /\
      TOYBarometerEngine.stderr this'
        = TOYBarometerEngine.stderr this ++
          omap (fun y => match run y with
                         | Return _ => None
                         | Throw e => Some (TOYBarometerEngine.skipWarning y e)
                         end) years /\
      (forall y : Z, y ∈ years ->
         match run y with
         | Return p => p ∈ TOYBarometerEngine.toyPeriods r
         | Throw e =>
             TOYBarometerEngine.skipWarning y e ∈ TOYBarometerEngine.stderr this' /\
             forall p, p ∈ TOYBarometerEngine.toyPeriods r ->
                       TOYBarometerEngine.year (TOYBarometerEngine.event p) <> y
         end).
Proof.
  intros fetch currentYear parameters this data ticker first_year last_year toy_start
    toy_end threshold forward_days years run Hvalid Hfetch Hdata.
  pose (table := TOYBarometerEngine.buildDataByDate data).
  pose (this1 := TOYBarometerEngine.send ticker "10y" this).
  pose (warnings := omap (skipped toy_start toy_end table data threshold forward_days) years).
  pose (periods := omap (analysed toy_start toy_end table data threshold forward_days) years).
  exists {| TOYBarometerEngine.matches := TOYBarometerEngine.event <$> periods;
            TOYBarometerEngine.total_periods := length (TOYBarometerEngine.event <$> periods);
            TOYBarometerEngine.summary :=
              TOYBarometerEngine.calculateTOYSummary periods threshold;
            TOYBarometerEngine.toyPeriods := periods |},
         (TOYBarometerEngine.incSuccess (add_warnings warnings this1)).
  assert (Hlen : bool_decide (length data = 0%nat) = false).
  { apply bool_decide_eq_false. destruct data; [congruence | discriminate]. }
  split.
  { unfold TOYBarometerEngine.analyze.
    fold ticker first_year last_year toy_start toy_end threshold forward_days.
    rewrite Hvalid. simpl length. rewrite bool_decide_eq_false_2 by lia.
    unfold etry, ebind at 1. unfold eret at 1.
    unfold ebind at 1. unfold TOYBarometerEngine.getHistoricalData.
    unfold ebind at 1. unfold emodify at 1. unfold elift. rewrite Hfetch.
    fold this1. unfold ebind at 1. rewrite Hlen. unfold eret at 1.
    unfold ebind at 1. fold years table.
    rewrite analyzeYears_all_years. rewrite app_nil_l.
    fold periods warnings.
    unfold ebind, emodify, eret. reflexivity. }
  cbn [TOYBarometerEngine.toyPeriods TOYBarometerEngine.matches
       TOYBarometerEngine.stderr TOYBarometerEngine.incSuccess].
  split; [reflexivity |]. split; [reflexivity |].
  assert (Hstderr : TOYBarometerEngine.stderr (add_warnings warnings this1)
                    = TOYBarometerEngine.stderr this ++ warnings).
  { rewrite add_warnings_stderr. reflexivity. }
  split; [exact Hstderr |].
  intros y Hy. rewrite Hstderr.
  destruct (run y) as [p | e] eqn:Hrun.
  - apply list_elem_of_omap. exists y. split; [exact Hy |].
    unfold analysed, table. fold (run y). now rewrite Hrun.
  - split.
    + apply elem_of_app. right. apply list_elem_of_omap. exists y. split; [exact Hy |].
      unfold skipped, table. fold (run y). now rewrite Hrun.
    + intros p Hp Hyear. apply list_elem_of_omap in Hp as (y' & _ & Hy').
      unfold analysed, table in Hy'. fold (run y') in Hy'.
      destruct (run y') as [p' | e'] eqn:Hrun'; [| discriminate].
      injection Hy' as ->.
      pose proof (analyzeTOYPeriod_year _ _ _ _ _ _ _ _ Hrun') as Hsame.
      assert (y' = y) as -> by congruence.
      rewrite Hrun in Hrun'. discriminate.
Qed.

Lemma toy_year_failure_is_not_fatal_witness :
  TOYBarometerEngine.validateTOYDates "11-19" "01-19" = [] /\
  toy_fetch "SPY" "10y" = Return toy_series /\
  toy_series <> [] /\
  exists r this',
    TOYBarometerEngine.analyze toy_fetch 2026 toy_request3 TOYBarometerEngine.constructor
      = (Return (BaseEventEngine.Success r), this') /\
    (TOYBarometerEngine.year <$> TOYBarometerEngine.matches r) = [2021] /\
    TOYBarometerEngine.stderr this'
      = [ "⚠️ Skipping TOY 2020: No trading days found for TOY period 2020";
          "⚠️ Skipping TOY 2022: No trading days found for TOY period 2022" ].
Proof.
  assert (Hvalid : TOYBarometerEngine.validateTOYDates "11-19" "01-19" = [])
    by (vm_compute; reflexivity).
  assert (Hfetch : toy_fetch "SPY" "10y" = Return toy_series) by reflexivity.
  assert (Hdata : toy_series <> []) by discriminate.
  split; [exact Hvalid |]. split; [exact Hfetch |]. split; [exact Hdata |].
  destruct (toy_year_failure_is_not_fatal toy_fetch 2026 toy_request3
              TOYBarometerEngine.constructor toy_series Hvalid Hfetch Hdata)
    as (r & this' & Hrun & Hperiods & Hmatches & Hstderr & _).
  exists r, this'. split; [exact Hrun |].
  split.
  - rewrite Hmatches, Hperiods. vm_compute. reflexivity.
  - rewrite Hstderr. vm_compute. reflexivity.
Defined.

(** A [try] whose handler returns is a statement that returns. *)
Lemma etry_returns {S A} (body : Eff S A) (handler : JsError -> Eff S A) :
  (forall e s, exists a s', handler e s = (Return a, s')) ->
  forall s, exists a s', etry body handler s = (Return a, s').
Proof.
  intros Hhandler s. unfold etry.
  destruct (body s) as [[a | e] s1]; [eauto | apply Hhandler].
Qed.

(** The TOY engine has its own [try]/[catch] around the whole analysis:
    [analyze] returns for every request and every answer of the data
    service. *)
Lemma toy_analyze_returns fetch currentYear parameters this :
  exists out this',
    TOYBarometerEngine.analyze fetch currentYear parameters this = (Return out, this').
Proof.
  unfold TOYBarometerEngine.analyze. apply etry_returns.
  intros e s. unfold ebind, emodify, eret. eauto.
Qed.
